(** * libria-telegram-bot: the activation-code relay of [src/index.js]

    A shallow embedding of the Cloudflare Worker in
    [libria-telegram-bot/src/index.js] and the properties of its two
    handlers, [handleTelegramWebhook] and [handleGetChatId].

    Modelling conventions.
    - A JavaScript string is a [string] of code units in the ASCII range;
      [toUpperCase] acts on the letters a-z and [TextEncoder.encode] yields
      one byte per code unit.  Text outside ASCII only occurs in the two
      fixed chat messages, which the program never inspects.
    - A byte of a [Uint8Array] and a 32-bit word are numbers in [N]; the
      wrap-around of word arithmetic is written out with [mod 2^32].
    - JSON numbers are integers ([Z]): chat identifiers and [Date.now()].
    - The KV namespace stores JSON text.  The only text the program writes
      is [JSON.stringify] of an object and the only use of a text read is
      [JSON.parse]; the model keeps the stored text in parsed form
      ([json]), and [JSON_stringify_object] drops the properties whose value
      is [undefined], as [JSON.stringify] does.
    - Platform calls that can reject inside the webhook handler
      ([request.json()], [crypto.subtle], [KV.put], [fetch]) are steps of an
      error-and-state monad; whether the platform rejects a call is read
      from the [Platform] record of the request being served.  [KV.get] is
      a read that returns.
    - The KV binding is an interface ([KVNamespace]); [ExpiringKV] states
      what Workers KV documents about [expirationTtl]. *)

From Stdlib Require Import NArith ZArith Ascii String List Bool Lia.
From stdpp Require Import base gmap strings list.
Import ListNotations.

Local Open Scope string_scope.
Local Open Scope list_scope.

(* ================================================================== *)
(** * String primitives of the JavaScript runtime                      *)
(* ================================================================== *)

Module JSString.

(** [String.prototype.toUpperCase], on one code unit. *)
Definition toUpperCase_char (c : ascii) : ascii :=
  let n := N_of_ascii c in
  if ((97 <=? n) && (n <=? 122))%N then ascii_of_N (n - 32) else c.

(** [s.toUpperCase()]. *)
Fixpoint toUpperCase (s : string) : string :=
  match s with
  | EmptyString => EmptyString
  | String c r => String (toUpperCase_char c) (toUpperCase r)
  end.

(** [s.startsWith(p)]. *)
Definition startsWith (s p : string) : bool := String.prefix p s.

(** [s.split(sep)] for a separator of one code unit: the pieces between
    the occurrences of [sep], at least one piece. *)
Fixpoint split (sep : ascii) (s : string) : list string :=
  match s with
  | EmptyString => [EmptyString]
  | String c r =>
      if Ascii.eqb c sep then EmptyString :: split sep r
      else match split sep r with
           | p :: ps => String c p :: ps
           | [] => [String c EmptyString]
           end
  end.

(** [s.substring(0, n)]. *)
Definition substring0 (n : nat) (s : string) : string := String.substring 0 n s.

(** The filler of [padStart]: the first [k] code units of [pad] repeated. *)
Fixpoint pad_filler (k : nat) (pad cur : string) : string :=
  match k with
  | O => EmptyString
  | S k' =>
      match cur with
      | String c r => String c (pad_filler k' pad r)
      | EmptyString =>
          match pad with
          | String c r => String c (pad_filler k' pad r)
          | EmptyString => EmptyString
          end
      end
  end.

(** [s.padStart(n, pad)]. *)
Definition padStart (n : nat) (pad s : string) : string :=
  if (n <=? String.length s)%nat then s
  else pad_filler (n - String.length s) pad pad +:+ s.

(** [arr.join('')]. *)
Definition join_empty (l : list string) : string := String.concat EmptyString l.

(** The digit of [Number.prototype.toString(16)] for a value below 16. *)
Definition hex_digit (d : N) : ascii :=
  if (d <? 10)%N then ascii_of_N (48 + d) else ascii_of_N (87 + d).

Fixpoint toString16_loop (fuel : nat) (n : N) (acc : string) : string :=
  match fuel with
  | O => acc
  | S f =>
      let acc' := String (hex_digit (n mod 16)) acc in
      if (n / 16 =? 0)%N then acc' else toString16_loop f (n / 16) acc'
  end.

(** [n.toString(16)] for a non-negative integer [n]: lower-case digits,
    no leading zero. *)
Definition toString16 (n : N) : string :=
  toString16_loop (S (N.to_nat (N.log2 n))) n EmptyString.

End JSString.

(* ================================================================== *)
(** * HMAC-SHA-256, the algorithm behind [crypto.subtle.sign]          *)
(* ================================================================== *)

Module SHA256.
Local Open Scope N_scope.
Local Open Scope list_scope.

Definition w32 (x : N) : N := x mod 2 ^ 32.
Definition add32 (x y : N) : N := w32 (x + y).
Definition not32 (x : N) : N := N.lxor (w32 x) 0xffffffff.
Definition rotr (n x : N) : N :=
  N.lor (N.shiftr (w32 x) n) (w32 (N.shiftl (w32 x) (32 - n))).
Definition shr (n x : N) : N := N.shiftr (w32 x) n.

Definition Ch (x y z : N) : N := N.lxor (N.land x y) (N.land (not32 x) z).
Definition Maj (x y z : N) : N :=
  N.lxor (N.lxor (N.land x y) (N.land x z)) (N.land y z).
Definition Sigma0 (x : N) : N := N.lxor (N.lxor (rotr 2 x) (rotr 13 x)) (rotr 22 x).
Definition Sigma1 (x : N) : N := N.lxor (N.lxor (rotr 6 x) (rotr 11 x)) (rotr 25 x).
Definition sigma0 (x : N) : N := N.lxor (N.lxor (rotr 7 x) (rotr 18 x)) (shr 3 x).
Definition sigma1 (x : N) : N := N.lxor (N.lxor (rotr 17 x) (rotr 19 x)) (shr 10 x).

(** The first 64 primes. *)
Definition primes : list N :=
  [2; 3; 5; 7; 11; 13; 17; 19; 23; 29; 31; 37; 41; 43; 47; 53; 59; 61; 67; 71; 73;
   79; 83; 89; 97; 101; 103; 107; 109; 113; 127; 131; 137; 139; 149; 151; 157; 163;
   167; 173; 179; 181; 191; 193; 197; 199; 211; 223; 227; 229; 233; 239; 241; 251;
   257; 263; 269; 271; 277; 281; 283; 293; 307; 311].

(** The integer cube root below [2 ^ bits], one bit at a time. *)
Fixpoint cube_root (bits : nat) (n r : N) : N :=
  match bits with
  | O => r
  | Datatypes.S b =>
      let r' := r + 2 ^ N.of_nat b in
      cube_root b n (if r' * r' * r' <=? n then r' else r)
  end.

(** The round constants: the first 32 bits of the fractional parts of the
    cube roots of the first 64 primes. *)
Definition K : list N :=
  Eval vm_compute in map (fun q => w32 (cube_root 36 (q * 2 ^ 96) 0)) primes.

(** The first 32 bits of the fractional part of a square root. *)
Definition sqrt_fraction (q : N) : N := w32 (N.sqrt (q * 2 ^ 64)).

(** The eight working variables, also the intermediate hash value. *)
Record state : Type := State {
  sa : N; sb : N; sc : N; sd : N; se : N; sf : N; sg : N; sh : N
}.

Definition H0 : state :=
  State 0x6a09e667 0xbb67ae85 0x3c6ef372 0xa54ff53a
        0x510e527f 0x9b05688c 0x1f83d9ab 0x5be0cd19.

(** Big-endian bytes of a 32-bit word and of a 64-bit length. *)
Definition be32 (x : N) : list N :=
  [ (x / 2 ^ 24) mod 256; (x / 2 ^ 16) mod 256; (x / 2 ^ 8) mod 256; x mod 256 ].
Definition be64 (x : N) : list N := be32 (x / 2 ^ 32) ++ be32 x.

(** Padding: a one bit, zeros up to 56 modulo 64 bytes, the bit length. *)
Definition pad (msg : list N) : list N :=
  let len := N.of_nat (length msg) in
  let zeros := N.to_nat ((64 - (len + 9) mod 64) mod 64) in
  msg ++ [0x80] ++ repeat 0 zeros ++ be64 (8 * len).

Fixpoint words_of_bytes (fuel : nat) (bs : list N) : list N :=
  match fuel with
  | O => []
  | S f =>
      match bs with
      | b0 :: b1 :: b2 :: b3 :: rest =>
          (b0 * 2 ^ 24 + b1 * 2 ^ 16 + b2 * 2 ^ 8 + b3) :: words_of_bytes f rest
      | _ => []
      end
  end.

Fixpoint blocks (fuel : nat) (bs : list N) : list (list N) :=
  match fuel with
  | O => []
  | S f =>
      match bs with
      | [] => []
      | _ => firstn 64 bs :: blocks f (skipn 64 bs)
      end
  end.

(** The message schedule: 16 words of the block, extended to 64. *)
Fixpoint extend (n : nat) (W : list N) : list N :=
  match n with
  | O => W
  | S n' =>
      let t := length W in
      let w i := nth (t - i) W 0 in
      extend n' (W ++ [add32 (add32 (sigma1 (w 2%nat)) (w 7%nat))
                             (add32 (sigma0 (w 15%nat)) (w 16%nat))])
  end.

Definition schedule (block : list N) : list N :=
  extend 48 (words_of_bytes 16 block).

Definition round (s : state) (kw : N * N) : state :=
  let T1 := add32 (add32 (add32 (sh s) (Sigma1 (se s))) (Ch (se s) (sf s) (sg s)))
                  (add32 (fst kw) (snd kw)) in
  let T2 := add32 (Sigma0 (sa s)) (Maj (sa s) (sb s) (sc s)) in
  State (add32 T1 T2) (sa s) (sb s) (sc s) (add32 (sd s) T1) (se s) (sf s) (sg s).

Definition compress (h : state) (block : list N) : state :=
  let s := fold_left round (combine K (schedule block)) h in
  State (add32 (sa h) (sa s)) (add32 (sb h) (sb s)) (add32 (sc h) (sc s))
        (add32 (sd h) (sd s)) (add32 (se h) (se s)) (add32 (sf h) (sf s))
        (add32 (sg h) (sg s)) (add32 (sh h) (sh s)).

Definition digest (s : state) : list N :=
  be32 (sa s) ++ be32 (sb s) ++ be32 (sc s) ++ be32 (sd s) ++
  be32 (se s) ++ be32 (sf s) ++ be32 (sg s) ++ be32 (sh s).

Definition sha256 (msg : list N) : list N :=
  let p := pad msg in
  digest (fold_left compress (blocks (length p) p) H0).

(** HMAC (RFC 2104) with SHA-256: block size 64 bytes. *)
Definition hmac_sha256 (key msg : list N) : list N :=
  let k0 := if (64 <? length key)%nat then sha256 key else key in
  let k := k0 ++ repeat 0 (64 - length k0)%nat in
  sha256 (map (N.lxor 0x5c) k ++ sha256 (map (N.lxor 0x36) k ++ msg)).

End SHA256.

(** [new TextEncoder().encode(s)]. *)
Definition TextEncoder_encode (s : string) : list N :=
  map N_of_ascii (list_ascii_of_string s).

(** [calcularFirma(codigo, secret)]: the value the promise resolves to. *)
Definition calcularFirma (codigo secret : string) : string :=
  let signature := SHA256.hmac_sha256 (TextEncoder_encode secret) (TextEncoder_encode codigo) in
  let hashArray := signature in
  let hashHex :=
    JSString.join_empty
      (map (fun b => JSString.padStart 2 "0" (JSString.toString16 b)) hashArray) in
  JSString.toUpperCase (JSString.substring0 8 hashHex).

(* ================================================================== *)
(** * JSON values and property access                                  *)
(* ================================================================== *)

(** A value produced by [JSON.parse]. *)
#[local] Set Warnings "-register-all".
Inductive json : Type :=
  | JNull
  | JBool (b : bool)
  | JNum (z : Z)
  | JStr (s : string)
  | JArr (items : list json)
  | JObj (props : list (string * json)).

(** A JavaScript value of the program: [None] is [undefined]. *)
Definition js_value : Type := option json.
Abbreviation undefined := (@None json).

Inductive exn : Type :=
  | SyntaxError   (* request.json() on a body that is not JSON *)
  | TypeError     (* property read on null or undefined, call of a non-function *)
  | CryptoError   (* crypto.subtle.importKey or sign rejected *)
  | KVError       (* LIBRIA_KV.put rejected *)
  | FetchError.   (* the outbound fetch rejected *)

Inductive result (A : Type) : Type :=
  | Ok (a : A)
  | Throw (e : exn).
Arguments Ok {A} a.
Arguments Throw {A} e.

(** The own property [k] of an object; each key of a parsed object occurs
    once. *)
Fixpoint own_property (props : list (string * json)) (k : string) : js_value :=
  match props with
  | [] => undefined
  | (k', v) :: rest => if String.eqb k' k then Some v else own_property rest k
  end.

(** [v.k] for the property names the program reads ([message], [text],
    [chat], [id], [chat_id], [timestamp]): none of them is a built-in
    property of a string, number, boolean or array. *)
Definition member (v : js_value) (k : string) : result js_value :=
  match v with
  | None | Some JNull => Throw TypeError
  | Some (JObj props) => Ok (own_property props k)
  | Some _ => Ok undefined
  end.

(** [v?.k]. *)
Definition optional_member (v : js_value) (k : string) : result js_value :=
  match v with
  | None | Some JNull => Ok undefined
  | _ => member v k
  end.

(** [v?.startsWith(p)]: [startsWith] is a function on strings only, and a
    value parsed from JSON holds no function. *)
Definition optional_startsWith (v : js_value) (p : string) : result (option bool) :=
  match v with
  | None | Some JNull => Ok None
  | Some (JStr s) => Ok (Some (JSString.startsWith s p))
  | Some _ => Throw TypeError
  end.

(** [!b] for the result of the optional chain. *)
Definition js_not (b : option bool) : bool :=
  match b with
  | Some true => false
  | _ => true
  end.

(** The properties [JSON.stringify] keeps of an object literal: those whose
    value is not [undefined]. *)
Fixpoint defined_props (props : list (string * js_value)) : list (string * json) :=
  match props with
  | [] => []
  | (k, None) :: rest => defined_props rest
  | (k, Some v) :: rest => (k, v) :: defined_props rest
  end.

(** [JSON.stringify] of an object literal, kept in parsed form. *)
Definition JSON_stringify_object (props : list (string * js_value)) : json :=
  JObj (defined_props props).

(* ================================================================== *)
(** * The platform: requests, responses, the KV namespace              *)
(* ================================================================== *)

Inductive Body : Type :=
  | Malformed                (* not JSON text *)
  | Parsed (update : json).

Record Request : Type := {
  method : string;
  pathname : string;
  searchParams : list (string * string);
  body : Body
}.

Inductive ResponseBody : Type :=
  | TextBody (s : string)
  | JsonBody (j : json).

Record Response : Type := {
  payload : ResponseBody;
  status : Z
}.

(** [new Response(text, { status })] and [Response.json(obj, { status })]. *)
Definition new_Response (text : string) (st : Z) : Response :=
  {| payload := TextBody text; status := st |}.
Definition Response_json (props : list (string * js_value)) (st : Z) : Response :=
  {| payload := JsonBody (JSON_stringify_object props); status := st |}.

(** [url.searchParams.get(name)]: the first value, or [null]. *)
Fixpoint searchParams_get (params : list (string * string)) (name : string) : option string :=
  match params with
  | [] => None
  | (k, v) :: rest => if String.eqb k name then Some v else searchParams_get rest name
  end.

(** The bindings of [env] that are text. *)
Record Env : Type := {
  TELEGRAM_SECRET_KEY : string;
  TELEGRAM_BOT_TOKEN : string
}.

(** What the platform does while one request is served: the clock, and
    which of its calls reject. *)
Record Platform : Type := {
  Date_now : Z;                (* milliseconds *)
  crypto_rejects : bool;
  kv_put_rejects : bool;
  fetch_rejects : bool
}.

(** The KV binding [env.LIBRIA_KV]: [kv_get s now key] and
    [kv_put s now key value expirationTtl], [now] in milliseconds and
    [expirationTtl] in seconds. *)
Class KVNamespace (S : Type) : Type := {
  kv_get : S -> Z -> string -> option json;
  kv_put : S -> Z -> string -> json -> Z -> S
}.

(** A namespace that honours [expirationTtl], as Workers KV documents. *)
Class ExpiringKV (S : Type) `{KVNamespace S} : Prop := {
  kv_get_put_live : forall s now key v ttl later,
    (now <= later < now + 1000 * ttl)%Z ->
    kv_get (kv_put s now key v ttl) later key = Some v;
  kv_get_put_expired : forall s now key v ttl later,
    (now + 1000 * ttl <= later)%Z ->
    kv_get (kv_put s now key v ttl) later key = None;
  kv_get_put_other : forall s now key v ttl later key',
    key <> key' ->
    kv_get (kv_put s now key v ttl) later key' = kv_get s later key'
}.

(** An outbound call to the Bot API: the URL and the JSON body posted. *)
Record TelegramCall : Type := {
  call_url : string;
  call_body : json
}.

(** Everything a request can change. *)
Record World (S : Type) : Type := {
  LIBRIA_KV : S;
  outbox : list TelegramCall;      (* calls delivered, oldest first *)
  console : list exn               (* console.error lines *)
}.
Arguments LIBRIA_KV {S} w.
Arguments outbox {S} w.
Arguments console {S} w.

(* ================================================================== *)
(** * The monad of a request: state and exceptions                     *)
(* ================================================================== *)

Definition M (S A : Type) : Type := World S -> result A * World S.

Definition ret {S A} (a : A) : M S A := fun w => (Ok a, w).
Definition throw {S A} (e : exn) : M S A := fun w => (Throw e, w).
Definition bind {S A B} (m : M S A) (f : A -> M S B) : M S B :=
  fun w => match m w with
           | (Ok a, w') => f a w'
           | (Throw e, w') => (Throw e, w')
           end.
Definition lift {S A} (r : result A) : M S A := fun w => (r, w).

(** [try { body } catch (error) { handler }]. *)
Definition try_catch {S A} (body : M S A) (handler : exn -> M S A) : M S A :=
  fun w => match body w with
           | (Ok a, w') => (Ok a, w')
           | (Throw e, w') => handler e w'
           end.

Declare Scope js_scope.
Delimit Scope js_scope with js.
Notation "x <- m ; k" := (bind m (fun x => k))
  (at level 100, m at next level, right associativity) : js_scope.
Notation "m ;; k" := (bind m (fun _ => k))
  (at level 100, right associativity) : js_scope.
Local Open Scope js_scope.

(* ================================================================== *)
(** * The worker                                                       *)
(* ================================================================== *)

Definition LF : string := String (ascii_of_nat 10) EmptyString.

(** The two chat messages of [handleTelegramWebhook]. *)
Definition usage_message : string :=
  "❌ Uso incorrecto." +:+ LF +:+ LF +:+
  "Debes usar: /start CODIGO" +:+ LF +:+
  "El código lo obtienes en la app LibrIA.".

Definition confirmation_message (firma : string) : string :=
  "✅ Bot activado correctamente" +:+ LF +:+ LF +:+
  "Tu código de verificación:" +:+ LF +:+
  "`" +:+ firma +:+ "`" +:+ LF +:+ LF +:+
  "Copia este código y pégalo en la app LibrIA." +:+ LF +:+ LF +:+
  "⏰ *El código expira en 10 minutos.*".

Section Worker.
Context {S : Type} `{KVNamespace S}.

(** [await request.json()]. *)
Definition request_json (request : Request) : M S json :=
  match body request with
  | Malformed => throw SyntaxError
  | Parsed update => ret update
  end.

(** [console.error('Error:', error)]. *)
Definition console_error (error : exn) : M S unit :=
  fun w => (Ok tt, {| LIBRIA_KV := LIBRIA_KV w;
                      outbox := outbox w;
                      console := console w ++ [error] |}).

(** [await fetch(url, { method: 'POST', headers, body })]: the call is
    delivered, or the promise rejects and nothing is delivered. *)
Definition global_fetch (p : Platform) (url : string) (payload : json) : M S unit :=
  if fetch_rejects p then throw FetchError
  else fun w => (Ok tt, {| LIBRIA_KV := LIBRIA_KV w;
                           outbox := outbox w ++ [{| call_url := url; call_body := payload |}];
                           console := console w |}).

(** [await env.LIBRIA_KV.put(key, JSON.stringify(value), { expirationTtl })]. *)
Definition LIBRIA_KV_put (p : Platform) (key : string) (value : json) (expirationTtl : Z)
  : M S unit :=
  if kv_put_rejects p then throw KVError
  else fun w => (Ok tt, {| LIBRIA_KV := kv_put (LIBRIA_KV w) (Date_now p) key value expirationTtl;
                           outbox := outbox w;
                           console := console w |}).

(** [await env.LIBRIA_KV.get(key)]. *)
Definition LIBRIA_KV_get (p : Platform) (key : string) : M S (option json) :=
  fun w => (Ok (kv_get (LIBRIA_KV w) (Date_now p) key), w).

(** [await calcularFirma(codigo, secret)], with the rejection of
    [crypto.subtle]. *)
Definition await_calcularFirma (p : Platform) (codigo secret : string) : M S string :=
  if crypto_rejects p then throw CryptoError
  else ret (calcularFirma codigo secret).

(** [sendTelegramMessage(env, chatId, text, markdown = false)]. *)
Definition sendTelegramMessage (env : Env) (p : Platform)
    (chatId : js_value) (text : string) (markdown : bool) : M S unit :=
  let url := "https://api.telegram.org/bot" +:+ TELEGRAM_BOT_TOKEN env +:+ "/sendMessage" in
  let body := [("chat_id", chatId); ("text", Some (JStr text))] in
  let body := if markdown then body ++ [("parse_mode", Some (JStr "Markdown"))] else body in
  global_fetch p url (JSON_stringify_object body).

(** The [try] block of [handleTelegramWebhook]. *)
Definition handleTelegramWebhook_try (request : Request) (env : Env) (p : Platform)
  : M S Response :=
  update <- request_json request;
  message <- lift (member (Some update) "message");
  text <- lift (optional_member message "text");
  starts <- lift (optional_startsWith text "/start");
  if js_not starts then ret (new_Response "OK" 200)
  else
    chat <- lift (member message "chat");
    chatId <- lift (member chat "id");
    text <- lift (member message "text");
    match text with
    | Some (JStr text) =>
        let parts := JSString.split " " text in
        if (length parts <? 2)%nat then
          sendTelegramMessage env p chatId usage_message false;;
          ret (new_Response "OK" 200)
        else
          let codigo := JSString.toUpperCase (nth 1 parts EmptyString) in
          firma <- await_calcularFirma p codigo (TELEGRAM_SECRET_KEY env);
          LIBRIA_KV_put p ("codigo:" +:+ codigo)
            (JSON_stringify_object
               [("chat_id", chatId);
                ("firma", Some (JStr firma));
                ("timestamp", Some (JNum (Date_now p)))])
            600;;
          sendTelegramMessage env p chatId (confirmation_message firma) true;;
          ret (new_Response "OK" 200)
    | _ => throw TypeError
    end.

(** [handleTelegramWebhook(request, env)]. *)
Definition handleTelegramWebhook (request : Request) (env : Env) (p : Platform)
  : M S Response :=
  try_catch (handleTelegramWebhook_try request env p)
            (fun error => console_error error;; ret (new_Response "Error" 500)).

(** [handleGetChatId(request, env)]; no [try] here, an exception leaves
    the handler. *)
Definition handleGetChatId (request : Request) (env : Env) (p : Platform)
  : M S Response :=
  match searchParams_get (searchParams request) "codigo" with
  | None | Some EmptyString =>
      ret (Response_json [("error", Some (JStr "Falta parámetro: codigo"))] 400)
  | Some codigo =>
      data <- LIBRIA_KV_get p ("codigo:" +:+ JSString.toUpperCase codigo);
      match data with
      | None => ret (Response_json [("error", Some (JStr "Código no encontrado"))] 404)
      | Some parsed =>
          chat_id <- lift (member (Some parsed) "chat_id");
          timestamp <- lift (member (Some parsed) "timestamp");
          ret (Response_json [("chat_id", chat_id); ("timestamp", timestamp)] 200)
      end
  end.

(** The [fetch] entry point of the default export. *)
Definition worker_fetch (request : Request) (env : Env) (p : Platform) : M S Response :=
  if String.eqb (pathname request) "/webhook" && String.eqb (method request) "POST"
  then handleTelegramWebhook request env p
  else if String.eqb (pathname request) "/get-chat-id" && String.eqb (method request) "GET"
  then handleGetChatId request env p
  else ret (new_Response "LibrIA Telegram Bot - OK" 200).

End Worker.

(* ================================================================== *)
(** * Two KV namespaces                                                *)
(* ================================================================== *)

(** Workers KV: every key carries its expiry instant (milliseconds); a
    read at or after that instant finds nothing. *)
Record WorkersKV : Type := { kv_entries : gmap string (json * Z) }.

#[export] Instance WorkersKV_namespace : KVNamespace WorkersKV := {
  kv_get s now key :=
    match kv_entries s !! key with
    | Some (v, expiry) => if (now <? expiry)%Z then Some v else None
    | None => None
    end;
  kv_put s now key v ttl :=
    {| kv_entries := <[key := (v, (now + 1000 * ttl)%Z)]> (kv_entries s) |}
}.

(** A namespace without expiry: [expirationTtl] is ignored and a key stays
    until it is overwritten. *)
Record ForeverKV : Type := { forever_entries : gmap string json }.

#[export] Instance ForeverKV_namespace : KVNamespace ForeverKV := {
  kv_get s now key := forever_entries s !! key;
  kv_put s now key v ttl := {| forever_entries := <[key := v]> (forever_entries s) |}
}.

Definition empty_world {S} (s : S) : World S :=
  {| LIBRIA_KV := s; outbox := []; console := [] |}.

(** A Telegram update carrying one text message of a chat. *)
Definition telegram_update (chat_id : json) (text : string) : json :=
  JObj [("update_id", JNum 1);
        ("message", JObj [("message_id", JNum 1);
                          ("chat", JObj [("id", chat_id); ("type", JStr "private")]);
                          ("text", JStr text)])].

Definition webhook_request (b : Body) : Request :=
  {| method := "POST"; pathname := "/webhook"; searchParams := []; body := b |}.

Definition lookup_request (params : list (string * string)) : Request :=
  {| method := "GET"; pathname := "/get-chat-id"; searchParams := params; body := Malformed |}.

Definition quiet (now : Z) : Platform :=
  {| Date_now := now; crypto_rejects := false; kv_put_rejects := false; fetch_rejects := false |}.

(* ================================================================== *)
(** * The vocabulary of the specification                              *)
(* ================================================================== *)

(** An upper-case hexadecimal digit, and a byte as two of them. *)
Definition HEX_digit (d : N) : ascii :=
  if (d <? 10)%N then ascii_of_N (48 + d) else ascii_of_N (55 + d).

Definition render_upper_hex_byte (b : N) : string :=
  String (HEX_digit (b / 16)) (String (HEX_digit (b mod 16)) EmptyString).

Fixpoint render_upper_hex (bytes : list N) : string :=
  match bytes with
  | [] => EmptyString
  | b :: rest => render_upper_hex_byte b +:+ render_upper_hex rest
  end.

(** One of the characters 0-9 and A-F. *)
Definition is_upper_hex (c : ascii) : bool :=
  let n := N_of_ascii c in
  (((48 <=? n) && (n <=? 57)) || ((65 <=? n) && (n <=? 70)))%N.

(** The verification code in the words of the specification: HMAC-SHA256
    keyed with the secret over the upper-cased activation code, its first
    four bytes, in upper-case hexadecimal. *)
Definition verification_code_spec (secret activation_code : string) : string :=
  render_upper_hex
    (firstn 4 (SHA256.hmac_sha256 (TextEncoder_encode secret)
                 (TextEncoder_encode (JSString.toUpperCase activation_code)))).

(** A string without a space. *)
Fixpoint no_space (s : string) : bool :=
  match s with
  | EmptyString => true
  | String c r => negb (Ascii.eqb c " ") && no_space r
  end.

(** Two code units that are the same letter in either case, or equal. *)
Definition same_letter (a b : ascii) : bool :=
  let x := N_of_ascii a in
  let y := N_of_ascii b in
  ((x =? y) || ((97 <=? x) && (x <=? 122) && (y =? x - 32))
            || ((97 <=? y) && (y <=? 122) && (x =? y - 32)))%N.

(** [q] is [c] up to the case of its letters. *)
Fixpoint case_variant (q c : string) : bool :=
  match q, c with
  | EmptyString, EmptyString => true
  | String a q', String b c' => same_letter a b && case_variant q' c'
  | _, _ => false
  end.

(** An update that carries a message with [text], from a chat whose
    identifier is [chat_id]. *)
Definition chat_event (update : json) (chat_id : json) (text : string) : Prop :=
  exists message chat,
    member (Some update) "message" = Ok (Some message) /\
    member (Some message) "text" = Ok (Some (JStr text)) /\
    member (Some message) "chat" = Ok (Some chat) /\
    member (Some chat) "id" = Ok (Some chat_id).

(** No call of the platform rejects while the request is served. *)
Definition no_rejection (p : Platform) : Prop :=
  crypto_rejects p = false /\ kv_put_rejects p = false /\ fetch_rejects p = false.

(** The record the Issuer writes and the call that confirms it. *)
Definition issued_record (chat_id : json) (firma : string) (now : Z) : json :=
  JObj [("chat_id", chat_id); ("firma", JStr firma); ("timestamp", JNum now)].

Definition confirmation_call (env : Env) (chat_id : json) (firma : string) : TelegramCall :=
  {| call_url := "https://api.telegram.org/bot" +:+ TELEGRAM_BOT_TOKEN env +:+ "/sendMessage";
     call_body := JObj [("chat_id", chat_id);
                        ("text", JStr (confirmation_message firma));
                        ("parse_mode", JStr "Markdown")] |}.

Definition usage_call (env : Env) (chat_id : json) : TelegramCall :=
  {| call_url := "https://api.telegram.org/bot" +:+ TELEGRAM_BOT_TOKEN env +:+ "/sendMessage";
     call_body := JObj [("chat_id", chat_id); ("text", JStr usage_message)] |}.

(** The world after an issuance for the upper-cased code [codigo]: one
    write with a time to live of 600 seconds, one call delivered. *)
Definition issued_world {S} `{KVNamespace S} (env : Env) (p : Platform) (w : World S)
    (chat_id : json) (codigo : string) : World S :=
  let firma := calcularFirma codigo (TELEGRAM_SECRET_KEY env) in
  {| LIBRIA_KV := kv_put (LIBRIA_KV w) (Date_now p) ("codigo:" +:+ codigo)
                    (issued_record chat_id firma (Date_now p)) 600;
     outbox := outbox w ++ [confirmation_call env chat_id firma];
     console := console w |}.

(** The 256 bytes. *)
Definition all_bytes : list N := map N.of_nat (seq 0 256).

(** The property [k] of a stored record. *)
Definition record_field (record : json) (k : string) : js_value :=
  match record with
  | JObj props => own_property props k
  | _ => undefined
  end.

(** The two error bodies and the success body of the lookup endpoint. *)
Definition missing_parameter : Response :=
  {| payload := JsonBody (JObj [("error", JStr "Falta parámetro: codigo")]); status := 400 |}.
Definition not_found : Response :=
  {| payload := JsonBody (JObj [("error", JStr "Código no encontrado")]); status := 404 |}.
Definition found (chat_id timestamp : json) : Response :=
  {| payload := JsonBody (JObj [("chat_id", chat_id); ("timestamp", timestamp)]);
     status := 200 |}.

(** The lookup endpoint in the words of the specification, over what the
    namespace returns for a key: 400 without a code, 404 without a record,
    200 with the two fields of the record. *)
Definition lookup_endpoint_spec (codigo : option string) (stored : string -> option json)
  : Response :=
  match codigo with
  | None | Some EmptyString => missing_parameter
  | Some c =>
      match stored ("codigo:" +:+ JSString.toUpperCase c) with
      | None => not_found
      | Some record =>
          {| payload := JsonBody (JSON_stringify_object
                                    [("chat_id", record_field record "chat_id");
                                     ("timestamp", record_field record "timestamp")]);
             status := 200 |}
      end
  end.

(** The property [k] of the JSON body of a response. *)
Definition response_field (r : Response) (k : string) : js_value :=
  match payload r with
  | JsonBody j => record_field j k
  | TextBody _ => undefined
  end.

(** Two stored values that differ at most in their [firma] property. *)
Definition same_but_firma (a b : option json) : Prop :=
  match a, b with
  | None, None => True
  | Some (JObj pa), Some (JObj pb) =>
      forall k, k <> "firma" -> own_property pa k = own_property pb k
  | _, _ => False
  end.

(** The [text] of the [message] of a request body, when it has one. *)
Definition message_text (b : Body) : js_value :=
  match b with
  | Parsed (JObj props) =>
      match own_property props "message" with
      | Some (JObj mprops) => own_property mprops "text"
      | _ => undefined
      end
  | _ => undefined
  end.

(** The body contains a message whose text begins with the command. *)
Definition has_start_command (b : Body) : bool :=
  match message_text b with
  | Some (JStr s) => JSString.startsWith s "/start"
  | _ => false
  end.

(** The answer to a body without the command: the acknowledgment, unless
    the body is not JSON, is [null], or has a text that is not a string. *)
Definition ignored_response (b : Body) : Response :=
  match b with
  | Malformed | Parsed JNull => new_Response "Error" 500
  | Parsed _ =>
      match message_text b with
      | None | Some JNull | Some (JStr _) => new_Response "OK" 200
      | Some _ => new_Response "Error" 500
      end
  end.

(** The configuration and the worlds of the scenarios. *)
Definition scenario_env : Env :=
  {| TELEGRAM_SECRET_KEY := "s3cr3t"; TELEGRAM_BOT_TOKEN := "TOKEN" |}.

Definition fresh_workers_kv : World WorkersKV := empty_world {| kv_entries := ∅ |}.
Definition fresh_forever_kv : World ForeverKV := empty_world {| forever_entries := ∅ |}.

(** A Workers KV world that holds one record, with the signature [firma]. *)
Definition stored_world (firma : string) : World WorkersKV :=
  {| LIBRIA_KV := kv_put (LIBRIA_KV fresh_workers_kv) 1000 "codigo:ABC123"
                    (issued_record (JNum 42) firma 1000) 600;
     outbox := [];
     console := [] |}.


(** ** Further vocabulary: pieces of a text, hexadecimal digits *)

(** The text up to its first space, and the text after it. *)
Fixpoint until_space (s : string) : string :=
  match s with
  | EmptyString => EmptyString
  | String c r => if Ascii.eqb c " " then EmptyString else String c (until_space r)
  end.

Fixpoint after_first_space (s : string) : string :=
  match s with
  | EmptyString => EmptyString
  | String c r => if Ascii.eqb c " " then r else after_first_space r
  end.

(** What stands between the first space of a text and its second space,
    or its end. *)
Definition second_piece (text : string) : string :=
  until_space (after_first_space text).

(** The value of a hexadecimal digit, and the bytes a hexadecimal text
    stands for. *)
Definition hex_value (c : ascii) : option N :=
  let n := N_of_ascii c in
  if ((48 <=? n) && (n <=? 57))%N then Some (n - 48)%N
  else if ((65 <=? n) && (n <=? 70))%N then Some (n - 55)%N
  else if ((97 <=? n) && (n <=? 102))%N then Some (n - 87)%N
  else None.

Fixpoint decode_hex (s : string) : option (list N) :=
  match s with
  | EmptyString => Some []
  | String a (String b r) =>
      match hex_value a, hex_value b, decode_hex r with
      | Some x, Some y, Some bytes => Some ((16 * x + y)%N :: bytes)
      | _, _, _ => None
      end
  | String _ EmptyString => None
  end.

(** The address every notification is posted to. *)
Definition sendMessage_url (env : Env) : string :=
  "https://api.telegram.org/bot" +:+ TELEGRAM_BOT_TOKEN env +:+ "/sendMessage".

(** A Workers KV world in which the text stored for ABC123 is [null]. *)
Definition null_world : World WorkersKV :=
  {| LIBRIA_KV := kv_put (LIBRIA_KV fresh_workers_kv) 1000 "codigo:ABC123" JNull 600;
     outbox := [];
     console := [] |}.

(** An update whose message comes without a chat, and one whose chat has
    no identifier. *)
Definition update_without_chat (text : string) : json :=
  JObj [("update_id", JNum 1);
        ("message", JObj [("message_id", JNum 1); ("text", JStr text)])].

Definition update_without_chat_id (text : string) : json :=
  JObj [("update_id", JNum 1);
        ("message", JObj [("message_id", JNum 1);
                          ("chat", JObj [("type", JStr "private")]);
                          ("text", JStr text)])].

(** The world after the worker has served a sequence of requests, each
    with what the platform did while it was served. *)
Fixpoint serve_all (env : Env) (requests : list (Request * Platform))
    (w : World WorkersKV) : World WorkersKV :=
  match requests with
  | [] => w
  | (r, p) :: rest => serve_all env rest (snd (worker_fetch r env p w))
  end.

(** An entry of Workers KV that the webhook handler wrote, with the secret
    of [env]: the record of an upper-case code, expiring 600 seconds after
    its timestamp. *)
Definition issued_entry (env : Env) (key : string) (v : json) (expiry : Z) : Prop :=
  exists (codigo : string) (chatId : js_value) (t : Z),
    key = "codigo:" +:+ codigo /\
    JSString.toUpperCase codigo = codigo /\
    v = JSON_stringify_object
          [("chat_id", chatId);
           ("firma", Some (JStr (calcularFirma codigo (TELEGRAM_SECRET_KEY env))));
           ("timestamp", Some (JNum t))] /\
    expiry = (t + 1000 * 600)%Z.

Definition holds_issued (env : Env) (w : World WorkersKV) : Prop :=
  forall key v expiry,
    kv_entries (LIBRIA_KV w) !! key = Some (v, expiry) -> issued_entry env key v expiry.

(* ================================================================== *)
(** * The embedding against known digests                              *)
(* ================================================================== *)

(** FIPS 180-4, section 4.2.2 and 5.3.3: the first and the last round
    constant, the first word of the initial hash value. *)
Example sha256_constants :
  nth_error SHA256.K 0 = Some 0x428a2f98%N /\
  nth_error SHA256.K 63 = Some 0xc67178f2%N /\
  length SHA256.K = 64%nat /\
  SHA256.sa SHA256.H0 = 0x6a09e667%N.
Proof. repeat split. Qed.

(** FIPS 180-4, the one-block message "abc". *)
Example sha256_abc :
  render_upper_hex (SHA256.sha256 (TextEncoder_encode "abc"))
  = "BA7816BF8F01CFEA414140DE5DAE2223B00361A396177A9CB410FF61F20015AD".
Proof. vm_compute. reflexivity. Qed.

(** RFC 4231, test case 2. *)
Example hmac_sha256_rfc4231_2 :
  render_upper_hex
    (SHA256.hmac_sha256 (TextEncoder_encode "Jefe")
       (TextEncoder_encode "what do ya want for nothing?"))
  = "5BDCC146BF60754E6A042426089575C75A003F089D2739839DEC58B964EC3843".
Proof. vm_compute. reflexivity. Qed.

(** The scenario of the specification: text "/start abc123", secret
    "s3cr3t". *)
Example calcularFirma_scenario : calcularFirma "ABC123" "s3cr3t" = "F5C79495".
Proof. vm_compute. reflexivity. Qed.

(* ================================================================== *)
(** * Bytes and hexadecimal text                                       *)
(* ================================================================== *)

Section Bytes.
Local Open Scope N_scope.

Lemma byte_in_all_bytes (b : N) : b < 256 -> In b all_bytes.
Proof.
  intros Hb. unfold all_bytes. apply in_map_iff.
  exists (N.to_nat b). split; [apply N2Nat.id |].
  apply in_seq. lia.
Qed.

(** A property of bytes that a boolean test decides holds of every byte
    once the test passes on the 256 of them. *)
Lemma byte_cases (P : N -> Prop) (t : N -> bool) :
  (forall b, t b = true -> P b) ->
  forallb t all_bytes = true ->
  forall b, b < 256 -> P b.
Proof.
  intros Ht Hall b Hb. apply Ht.
  eapply forallb_forall in Hall; [exact Hall | now apply byte_in_all_bytes].
Qed.

(** What the source renders a byte to, upper-cased, is the byte in two
    upper-case hexadecimal digits. *)
Lemma padded_byte_upper (b : N) :
  b < 256 ->
  JSString.toUpperCase (JSString.padStart 2 "0" (JSString.toString16 b))
  = render_upper_hex_byte b.
Proof.
  revert b.
  apply (byte_cases _ (fun b =>
    String.eqb (JSString.toUpperCase (JSString.padStart 2 "0" (JSString.toString16 b)))
               (render_upper_hex_byte b))).
  - intros b Hb. now apply String.eqb_eq.
  - vm_compute. reflexivity.
Qed.

Lemma padded_byte_length (b : N) :
  b < 256 ->
  String.length (JSString.padStart 2 "0" (JSString.toString16 b)) = 2%nat.
Proof.
  revert b.
  apply (byte_cases _ (fun b =>
    Nat.eqb (String.length (JSString.padStart 2 "0" (JSString.toString16 b))) 2)).
  - intros b Hb. now apply Nat.eqb_eq.
  - vm_compute. reflexivity.
Qed.

Lemma render_upper_hex_byte_digits (b : N) :
  b < 256 ->
  forallb is_upper_hex (list_ascii_of_string (render_upper_hex_byte b)) = true.
Proof.
  revert b.
  apply (byte_cases _ (fun b =>
    forallb is_upper_hex (list_ascii_of_string (render_upper_hex_byte b)))).
  - trivial.
  - vm_compute. reflexivity.
Qed.

End Bytes.

(** ** The digest is 32 bytes *)

Lemma be32_bytes (x : N) : Forall (fun b => (b < 256)%N) (SHA256.be32 x).
Proof. unfold SHA256.be32. repeat constructor; now apply N.mod_lt. Qed.

Lemma digest_length (s : SHA256.state) : length (SHA256.digest s) = 32%nat.
Proof. reflexivity. Qed.

Lemma digest_bytes (s : SHA256.state) : Forall (fun b => (b < 256)%N) (SHA256.digest s).
Proof. unfold SHA256.digest. repeat (apply Forall_app; split); apply be32_bytes. Qed.

Lemma sha256_length (msg : list N) : length (SHA256.sha256 msg) = 32%nat.
Proof. unfold SHA256.sha256. apply digest_length. Qed.

Lemma sha256_bytes (msg : list N) : Forall (fun b => (b < 256)%N) (SHA256.sha256 msg).
Proof. unfold SHA256.sha256. apply digest_bytes. Qed.

Lemma hmac_sha256_length (key msg : list N) : length (SHA256.hmac_sha256 key msg) = 32%nat.
Proof. unfold SHA256.hmac_sha256. apply sha256_length. Qed.

Lemma hmac_sha256_bytes (key msg : list N) :
  Forall (fun b => (b < 256)%N) (SHA256.hmac_sha256 key msg).
Proof. unfold SHA256.hmac_sha256. apply sha256_bytes. Qed.

(** ** Upper-casing, prefixes and joins *)

Lemma toUpperCase_append (s t : string) :
  JSString.toUpperCase (s +:+ t) = JSString.toUpperCase s +:+ JSString.toUpperCase t.
Proof. induction s as [| c s IH]; simpl; [reflexivity | now rewrite IH]. Qed.

Lemma toUpperCase_substring0 (n : nat) (s : string) :
  JSString.toUpperCase (JSString.substring0 n s)
  = JSString.substring0 n (JSString.toUpperCase s).
Proof.
  unfold JSString.substring0. revert s.
  induction n as [| n IH]; intros [| c s]; simpl; try reflexivity.
  now rewrite IH.
Qed.

Lemma toUpperCase_join (l : list string) :
  JSString.toUpperCase (JSString.join_empty l)
  = JSString.join_empty (map JSString.toUpperCase l).
Proof.
  unfold JSString.join_empty.
  induction l as [| x [| y l] IH]; try reflexivity.
  change (JSString.toUpperCase (x +:+ EmptyString +:+ String.concat EmptyString (y :: l))
          = JSString.toUpperCase x +:+ EmptyString
            +:+ String.concat EmptyString (map JSString.toUpperCase (y :: l))).
  now rewrite !toUpperCase_append, IH.
Qed.

Lemma join_render_upper_hex (bytes : list N) :
  JSString.join_empty (map render_upper_hex_byte bytes) = render_upper_hex bytes.
Proof.
  unfold JSString.join_empty.
  induction bytes as [| b [| b' bytes] IH]; try reflexivity.
  change (render_upper_hex_byte b +:+ EmptyString
          +:+ String.concat EmptyString (map render_upper_hex_byte (b' :: bytes))
          = render_upper_hex_byte b +:+ render_upper_hex (b' :: bytes)).
  now rewrite IH.
Qed.

Lemma substring_nothing (s : string) : String.substring 0 0 s = EmptyString.
Proof. destruct s; reflexivity. Qed.

(** Eight characters of the rendering are four bytes of the data. *)
Lemma substring0_render_upper_hex (bytes : list N) :
  (4 <= length bytes)%nat ->
  JSString.substring0 8 (render_upper_hex bytes) = render_upper_hex (firstn 4 bytes).
Proof.
  intros Hlen.
  destruct bytes as [| b0 [| b1 [| b2 [| b3 rest]]]]; simpl in Hlen; try lia.
  unfold JSString.substring0. simpl. now rewrite substring_nothing.
Qed.

Lemma render_upper_hex_length (bytes : list N) :
  String.length (render_upper_hex bytes) = (2 * length bytes)%nat.
Proof.
  induction bytes as [| b bytes IH]; [reflexivity |].
  change (Datatypes.S (Datatypes.S (String.length (render_upper_hex bytes)))
          = (2 * Datatypes.S (length bytes))%nat).
  rewrite IH. lia.
Qed.

Lemma render_upper_hex_digits (bytes : list N) :
  Forall (fun b => (b < 256)%N) bytes ->
  forallb is_upper_hex (list_ascii_of_string (render_upper_hex bytes)) = true.
Proof.
  induction 1 as [| b bytes Hb _ IH]; [reflexivity |].
  pose proof (render_upper_hex_byte_digits b Hb) as Hd.
  change (is_upper_hex (HEX_digit (b / 16))
          && (is_upper_hex (HEX_digit (b mod 16)) && true) = true) in Hd.
  change (is_upper_hex (HEX_digit (b / 16))
          && (is_upper_hex (HEX_digit (b mod 16))
              && forallb is_upper_hex (list_ascii_of_string (render_upper_hex bytes)))
          = true).
  rewrite IH. exact Hd.
Qed.

(** The text [calcularFirma] builds from a signature. *)
Lemma firma_of_signature (signature : list N) :
  (4 <= length signature)%nat ->
  Forall (fun b => (b < 256)%N) signature ->
  JSString.toUpperCase
    (JSString.substring0 8
       (JSString.join_empty
          (map (fun b => JSString.padStart 2 "0" (JSString.toString16 b)) signature)))
  = render_upper_hex (firstn 4 signature).
Proof.
  intros Hlen Hbytes.
  rewrite toUpperCase_substring0, toUpperCase_join, map_map.
  rewrite (map_ext_Forall _ render_upper_hex_byte).
  - rewrite join_render_upper_hex. now apply substring0_render_upper_hex.
  - eapply Forall_impl; [exact Hbytes |]. intros b Hb. now apply padded_byte_upper.
Qed.

(** C2. For every activation code and secret, the verification code the
    handler derives, [calcularFirma] of the upper-cased activation code, is
    HMAC-SHA256 keyed with the secret over the upper-cased activation code,
    cut to its first four bytes and written as exactly eight upper-case
    hexadecimal characters.  The code is a function of the activation code
    and the secret alone: awaiting it in any world and at any instant, on a
    platform that does not reject, yields this value and changes nothing. *)
Theorem C2_verification_code_is_truncated_hmac
    (S : Type) (activation_code secret : string) (now : Z) (w : World S) :
  let code := calcularFirma (JSString.toUpperCase activation_code) secret in
  code = verification_code_spec secret activation_code /\
  String.length code = 8%nat /\
  forallb is_upper_hex (list_ascii_of_string code) = true /\
  await_calcularFirma
    {| Date_now := now; crypto_rejects := false;
       kv_put_rejects := false; fetch_rejects := false |}
    (JSString.toUpperCase activation_code) secret w
  = (Ok code, w).
Proof.
  intros code.
  assert (Hspec : code = verification_code_spec secret activation_code).
  { unfold code, calcularFirma, verification_code_spec.
    apply firma_of_signature.
    - rewrite hmac_sha256_length. lia.
    - apply hmac_sha256_bytes. }
  split; [exact Hspec |].
  split; [| split; [| reflexivity]]; rewrite Hspec; unfold verification_code_spec.
  - rewrite render_upper_hex_length, length_firstn, hmac_sha256_length. reflexivity.
  - apply render_upper_hex_digits, Forall_take, hmac_sha256_bytes.
Qed.

(** ** Splitting at spaces, letter case *)

Lemma split_no_space (s : string) :
  no_space s = true -> JSString.split " " s = [s].
Proof.
  induction s as [| c s IH]; [reflexivity |].
  simpl. intros [Hc Hs]%andb_prop.
  apply negb_true_iff in Hc. rewrite Hc, (IH Hs). reflexivity.
Qed.

Lemma split_start (c : string) :
  no_space c = true -> JSString.split " " ("/start " +:+ c) = ["/start"; c].
Proof.
  intros Hc. cbv [String.append]. simpl.
  rewrite (split_no_space c Hc). reflexivity.
Qed.

Lemma startsWith_start (c : string) :
  JSString.startsWith ("/start " +:+ c) "/start" = true.
Proof. reflexivity. Qed.

Lemma ascii_cases (t : ascii -> bool) :
  forallb t (map ascii_of_N all_bytes) = true -> forall a, t a = true.
Proof.
  intros Hall a.
  eapply forallb_forall in Hall; [exact Hall |].
  apply in_map_iff. exists (N_of_ascii a).
  split; [apply ascii_N_embedding |].
  apply byte_in_all_bytes, N_ascii_bounded.
Qed.

Lemma same_letter_upper (a b : ascii) :
  same_letter a b = true -> JSString.toUpperCase_char a = JSString.toUpperCase_char b.
Proof.
  intros Hab.
  pose proof (ascii_cases
    (fun a => forallb (fun b =>
       implb (same_letter a b)
             (Ascii.eqb (JSString.toUpperCase_char a) (JSString.toUpperCase_char b)))
       (map ascii_of_N all_bytes))) as Hcheck.
  specialize (Hcheck ltac:(vm_compute; reflexivity) a).
  eapply forallb_forall with (x := b) in Hcheck.
  - rewrite Hab in Hcheck. now apply Ascii.eqb_eq.
  - apply in_map_iff. exists (N_of_ascii b).
    split; [apply ascii_N_embedding | apply byte_in_all_bytes, N_ascii_bounded].
Qed.

Lemma case_variant_upper (q c : string) :
  case_variant q c = true -> JSString.toUpperCase q = JSString.toUpperCase c.
Proof.
  revert c. induction q as [| a q IH]; intros [| b c]; simpl; try discriminate.
  - reflexivity.
  - intros [Hab Hqc]%andb_prop.
    now rewrite (same_letter_upper a b Hab), (IH c Hqc).
Qed.

Lemma case_variant_refl (c : string) : case_variant c c = true.
Proof.
  induction c as [| a c IH]; [reflexivity |].
  simpl. rewrite IH, andb_true_r.
  unfold same_letter. now rewrite N.eqb_refl.
Qed.

Lemma case_variant_nonempty (q c : string) :
  case_variant q c = true -> c <> EmptyString -> q <> EmptyString.
Proof. destruct q, c; simpl; congruence. Qed.

(* ================================================================== *)
(** * Runs of the webhook handler                                      *)
(* ================================================================== *)

Arguments calcularFirma : simpl never.
Arguments confirmation_message : simpl never.
Arguments usage_message : simpl never.

Ltac run_handler :=
  cbv beta iota zeta delta
    [handleTelegramWebhook handleTelegramWebhook_try handleGetChatId
     try_catch bind lift ret throw request_json console_error
     sendTelegramMessage global_fetch LIBRIA_KV_put LIBRIA_KV_get
     await_calcularFirma optional_startsWith js_not].

Tactic Notation "step" constr(E) := rewrite E; run_handler.

Section WebhookRuns.
Context {S : Type} `{KVNamespace S}.
Variables (request : Request) (env : Env) (p : Platform) (w : World S).

Lemma chat_event_optional_text update chat_id text :
  chat_event update chat_id text ->
  exists message chat,
    member (Some update) "message" = Ok (Some message) /\
    optional_member (Some message) "text" = Ok (Some (JStr text)) /\
    member (Some message) "text" = Ok (Some (JStr text)) /\
    member (Some message) "chat" = Ok (Some chat) /\
    member (Some chat) "id" = Ok (Some chat_id).
Proof.
  intros (message & chat & Hm & Ht & Hc & Hid).
  exists message, chat. repeat split; try assumption.
  destruct message; try discriminate; exact Ht.
Qed.

(** A message "/start c", [c] without a space: the record is written
    under "codigo:" followed by the upper-cased [c], then the chat is told
    the verification code. *)
Lemma webhook_issues update chat_id c :
  body request = Parsed update ->
  chat_event update chat_id ("/start " +:+ c) ->
  no_space c = true ->
  no_rejection p ->
  handleTelegramWebhook request env p w
  = (Ok (new_Response "OK" 200),
     issued_world env p w chat_id (JSString.toUpperCase c)).
Proof.
  intros Hbody Hevent Hc (Hcrypto & Hput & Hfetch).
  apply chat_event_optional_text in Hevent
    as (message & chat & Hm & Hot & Ht & Hch & Hid).
  run_handler.
  step Hbody. step Hm. step Hot. step startsWith_start.
  step Hch. step Hid. step Ht. step (split_start c Hc).
  simpl. rewrite Hcrypto, Hput, Hfetch. reflexivity.
Qed.

(** A message that starts with the command and has no space: the chat is
    told how to use the command, and nothing is written. *)
Lemma webhook_usage update chat_id text :
  body request = Parsed update ->
  chat_event update chat_id text ->
  JSString.startsWith text "/start" = true ->
  no_space text = true ->
  fetch_rejects p = false ->
  handleTelegramWebhook request env p w
  = (Ok (new_Response "OK" 200),
     {| LIBRIA_KV := LIBRIA_KV w;
        outbox := outbox w ++ [usage_call env chat_id];
        console := console w |}).
Proof.
  intros Hbody Hevent Hstart Hns Hfetch.
  apply chat_event_optional_text in Hevent
    as (message & chat & Hm & Hot & Ht & Hch & Hid).
  run_handler.
  step Hbody. step Hm. step Hot. step Hstart.
  step Hch. step Hid. step Ht. step (split_no_space text Hns).
  simpl. rewrite Hfetch. reflexivity.
Qed.

End WebhookRuns.

(* ================================================================== *)
(** * Runs of the lookup handler                                       *)
(* ================================================================== *)

Section LookupRuns.
Context {S : Type} `{KVNamespace S}.
Variables (request : Request) (env : Env) (p : Platform) (w : World S).

Lemma lookup_run :
  (forall key, kv_get (LIBRIA_KV w) (Date_now p) key <> Some JNull) ->
  handleGetChatId request env p w
  = (Ok (lookup_endpoint_spec (searchParams_get (searchParams request) "codigo")
           (kv_get (LIBRIA_KV w) (Date_now p))), w).
Proof.
  intros Hrecords. run_handler. unfold lookup_endpoint_spec.
  destruct (searchParams_get (searchParams request) "codigo") as [[| a q] |];
    try reflexivity.
  run_handler.
  specialize (Hrecords ("codigo:" +:+ JSString.toUpperCase (String a q))).
  destruct (kv_get (LIBRIA_KV w) (Date_now p)
              ("codigo:" +:+ JSString.toUpperCase (String a q))) as [[] |];
    try reflexivity.
  congruence.
Qed.

Lemma lookup_frame : snd (handleGetChatId request env p w) = w.
Proof.
  run_handler.
  destruct (searchParams_get (searchParams request) "codigo") as [[| a q] |];
    try reflexivity.
  run_handler.
  destruct (kv_get (LIBRIA_KV w) (Date_now p)
              ("codigo:" +:+ JSString.toUpperCase (String a q))) as [[] |];
    reflexivity.
Qed.

End LookupRuns.

(* ================================================================== *)
(** * Workers KV honours the time to live                              *)
(* ================================================================== *)

#[export] Instance WorkersKV_expiring : ExpiringKV WorkersKV.
Proof.
  split.
  - intros s now key v ttl later Hlive. simpl.
    rewrite lookup_insert_eq.
    destruct (Z.ltb_spec later (now + 1000 * ttl)); [reflexivity | lia].
  - intros s now key v ttl later Hlate. simpl.
    rewrite lookup_insert_eq.
    destruct (Z.ltb_spec later (now + 1000 * ttl)); [lia | reflexivity].
  - intros s now key v ttl later key' Hne. simpl.
    now rewrite lookup_insert_ne.
Qed.

(* ================================================================== *)
(** * Every run of the webhook handler                                 *)
(* ================================================================== *)

(** Case analysis on every branch of the handler. *)
Ltac webhook_cases :=
  run_handler;
  repeat match goal with
         | |- context [match ?x with _ => _ end] =>
             lazymatch x with
             | context [match _ with _ => _ end] => fail
             | _ => destruct x eqn:?; run_handler; simpl
             end
         end.

Section EveryWebhookRun.
Context {S : Type} `{KVNamespace S}.
Variables (request : Request) (env : Env) (p : Platform) (w : World S).


(** A run writes nothing, or writes one object with a time to live of
    600 seconds. *)
Lemma webhook_store_effect :
  LIBRIA_KV (snd (handleTelegramWebhook request env p w)) = LIBRIA_KV w \/
  exists key props,
    LIBRIA_KV (snd (handleTelegramWebhook request env p w))
    = kv_put (LIBRIA_KV w) (Date_now p) key (JObj props) 600.
Proof.
  webhook_cases;
    first [left; reflexivity | right; do 2 eexists; reflexivity].
Qed.

(** When the [try] block throws, nothing was delivered before the throw,
    the handler logs the error and answers 500, delivering nothing. *)
Lemma webhook_catch (error : exn) (w1 : World S) :
  handleTelegramWebhook_try request env p w = (Throw error, w1) ->
  handleTelegramWebhook request env p w
  = (Ok (new_Response "Error" 500),
     {| LIBRIA_KV := LIBRIA_KV w1; outbox := outbox w;
        console := console w ++ [error] |})
  /\ outbox w1 = outbox w /\ console w1 = console w.
Proof.
  intros Htry.
  unfold handleTelegramWebhook, try_catch. rewrite Htry.
  assert (Hsame : outbox w1 = outbox w /\ console w1 = console w).
  { revert Htry. webhook_cases; intros [= <- <-]; auto. }
  destruct Hsame as [Ho Hc]. run_handler. rewrite Ho, Hc. auto.
Qed.

End EveryWebhookRun.

(* ================================================================== *)
(** * Lookups after an issuance                                        *)
(* ================================================================== *)

Section LookupAfterIssue.
Context {S : Type} `{ExpiringKV S}.
Variables (env : Env) (p : Platform) (w : World S).
Variables (chat_id : json) (c : string).
Variables (lookup : Request) (p' : Platform) (q : string).
Hypothesis Hq : searchParams_get (searchParams lookup) "codigo" = Some q.
Hypothesis Hvariant : case_variant q c = true.
Hypothesis Hc : c <> EmptyString.

Lemma lookup_within_ttl :
  (Date_now p <= Date_now p' < Date_now p + 600000)%Z ->
  handleGetChatId lookup env p' (issued_world env p w chat_id (JSString.toUpperCase c))
  = (Ok (found chat_id (JNum (Date_now p))),
     issued_world env p w chat_id (JSString.toUpperCase c)).
Proof.
  intros Hlive. run_handler. rewrite Hq.
  pose proof (case_variant_nonempty q c Hvariant Hc) as Hne.
  destruct q as [| a q']; [congruence |]. run_handler.
  rewrite (case_variant_upper _ _ Hvariant).
  unfold issued_world. cbn [LIBRIA_KV].
  rewrite kv_get_put_live by lia. reflexivity.
Qed.

Lemma lookup_after_ttl :
  (Date_now p + 600000 <= Date_now p')%Z ->
  handleGetChatId lookup env p' (issued_world env p w chat_id (JSString.toUpperCase c))
  = (Ok not_found, issued_world env p w chat_id (JSString.toUpperCase c)).
Proof.
  intros Hlate. run_handler. rewrite Hq.
  pose proof (case_variant_nonempty q c Hvariant Hc) as Hne.
  destruct q as [| a q']; [congruence |]. run_handler.
  rewrite (case_variant_upper _ _ Hvariant).
  unfold issued_world. cbn [LIBRIA_KV].
  rewrite kv_get_put_expired by lia. reflexivity.
Qed.

Lemma lookup_never_issued (w0 : World S) :
  kv_get (LIBRIA_KV w0) (Date_now p') ("codigo:" +:+ JSString.toUpperCase c) = None ->
  handleGetChatId lookup env p' w0 = (Ok not_found, w0).
Proof.
  intros Habsent. run_handler. rewrite Hq.
  pose proof (case_variant_nonempty q c Hvariant Hc) as Hne.
  destruct q as [| a q']; [congruence |]. run_handler.
  rewrite (case_variant_upper _ _ Hvariant), Habsent. reflexivity.
Qed.

End LookupAfterIssue.

(* ================================================================== *)
(** * The properties of the specification                              *)
(* ================================================================== *)

(** ** Issuance and lookup *)

(** C1, as stated, fails.  The chat with identifier 42 sends
    "/start abc123" at instant 1000 and is told the verification code
    F5C79495; a lookup with that verification code at the same instant is
    answered 404, not with the chat identifier. *)
Lemma C1_lookup_by_verification_code_is_not_found :
  let issue :=
    handleTelegramWebhook
      (webhook_request (Parsed (telegram_update (JNum 42) "/start abc123")))
      scenario_env (quiet 1000) fresh_workers_kv in
  fst issue = Ok (new_Response "OK" 200) /\
  outbox (snd issue) = [confirmation_call scenario_env (JNum 42) "F5C79495"] /\
  fst (handleGetChatId (lookup_request [("codigo", "F5C79495")])
         scenario_env (quiet 1000) (snd issue))
  = Ok not_found.
Proof. vm_compute. repeat split. Qed.

(** C1, amended.  For every message "/start c" with a non-empty code [c]
    served without a rejection, the handler writes the record under the
    key "codigo:" followed by the upper-cased activation code [c] (not
    under the verification code), so that a lookup with the activation code
    [c], made after the issuance and before 600 seconds have passed, is
    answered 200 with the chat identifier of the originating event. *)
Theorem C1_lookup_by_activation_code
    {S : Type} `{ExpiringKV S}
    (request : Request) (env : Env) (p : Platform) (w : World S)
    (update chat_id : json) (c : string) (lookup : Request) (p' : Platform) :
  body request = Parsed update ->
  chat_event update chat_id ("/start " +:+ c) ->
  no_space c = true ->
  c <> EmptyString ->
  no_rejection p ->
  searchParams_get (searchParams lookup) "codigo" = Some c ->
  (Date_now p <= Date_now p' < Date_now p + 600000)%Z ->
  let issue := handleTelegramWebhook request env p w in
  fst issue = Ok (new_Response "OK" 200) /\
  LIBRIA_KV (snd issue)
  = kv_put (LIBRIA_KV w) (Date_now p) ("codigo:" +:+ JSString.toUpperCase c)
      (issued_record chat_id
         (calcularFirma (JSString.toUpperCase c) (TELEGRAM_SECRET_KEY env))
         (Date_now p))
      600 /\
  fst (handleGetChatId lookup env p' (snd issue))
  = Ok (found chat_id (JNum (Date_now p))).
Proof.
  intros Hbody Hevent Hns Hc Hquiet Hq Hlive issue. unfold issue.
  rewrite (webhook_issues request env p w update chat_id c Hbody Hevent Hns Hquiet).
  cbn [fst snd]. split; [reflexivity |]. split; [reflexivity |].
  rewrite (lookup_within_ttl env p w chat_id c lookup p' c Hq
             (case_variant_refl c) Hc Hlive).
  reflexivity.
Qed.

(** The scenario of the specification, looked up by its activation code. *)
Lemma C1_lookup_by_activation_code_witness :
  let issue :=
    handleTelegramWebhook
      (webhook_request (Parsed (telegram_update (JNum 42) "/start abc123")))
      scenario_env (quiet 1000) fresh_workers_kv in
  fst issue = Ok (new_Response "OK" 200) /\
  LIBRIA_KV (snd issue)
  = kv_put (LIBRIA_KV fresh_workers_kv) 1000 "codigo:ABC123"
      (issued_record (JNum 42) (calcularFirma "ABC123" "s3cr3t") 1000) 600 /\
  fst (handleGetChatId (lookup_request [("codigo", "abc123")])
         scenario_env (quiet 2000) (snd issue))
  = Ok (found (JNum 42) (JNum 1000)).
Proof.
  apply (C1_lookup_by_activation_code
           (webhook_request (Parsed (telegram_update (JNum 42) "/start abc123")))
           scenario_env (quiet 1000) fresh_workers_kv
           (telegram_update (JNum 42) "/start abc123") (JNum 42) "abc123"
           (lookup_request [("codigo", "abc123")]) (quiet 2000)).
  - reflexivity.
  - exists (JObj [("message_id", JNum 1);
                  ("chat", JObj [("id", JNum 42); ("type", JStr "private")]);
                  ("text", JStr "/start abc123")]),
           (JObj [("id", JNum 42); ("type", JStr "private")]).
    repeat split.
  - reflexivity.
  - discriminate.
  - repeat split.
  - reflexivity.
  - simpl. lia.
Defined.

(** C9. For every message "/start c" with a non-empty code [c] served
    without a rejection, the record, with the chat identifier, the
    signature and the instant of issuance, is stored under the key
    "codigo:" followed by the upper-cased [c], every other key reading as
    before; and a lookup whose [codigo] parameter is [c] in any letter
    case, before 600 seconds have passed, is answered 200 with the chat
    identifier and the instant of issuance, leaving the world as it is. *)
Theorem C9_record_keyed_by_activation_code
    {S : Type} `{ExpiringKV S}
    (request : Request) (env : Env) (p : Platform) (w : World S)
    (update chat_id : json) (c : string)
    (lookup : Request) (p' : Platform) (q : string) :
  body request = Parsed update ->
  chat_event update chat_id ("/start " +:+ c) ->
  no_space c = true ->
  c <> EmptyString ->
  no_rejection p ->
  searchParams_get (searchParams lookup) "codigo" = Some q ->
  case_variant q c = true ->
  (Date_now p <= Date_now p' < Date_now p + 600000)%Z ->
  let issued := snd (handleTelegramWebhook request env p w) in
  let key := "codigo:" +:+ JSString.toUpperCase c in
  kv_get (LIBRIA_KV issued) (Date_now p') key
  = Some (JObj [("chat_id", chat_id);
                ("firma", JStr (calcularFirma (JSString.toUpperCase c)
                                  (TELEGRAM_SECRET_KEY env)));
                ("timestamp", JNum (Date_now p))]) /\
  (forall key', key <> key' ->
     kv_get (LIBRIA_KV issued) (Date_now p') key' = kv_get (LIBRIA_KV w) (Date_now p') key') /\
  handleGetChatId lookup env p' issued
  = (Ok {| payload := JsonBody (JObj [("chat_id", chat_id);
                                      ("timestamp", JNum (Date_now p))]);
           status := 200 |},
     issued).
Proof.
  intros Hbody Hevent Hns Hc Hquiet Hq Hvariant Hlive issued key.
  unfold issued, key.
  rewrite (webhook_issues request env p w update chat_id c Hbody Hevent Hns Hquiet).
  cbn [snd]. split; [| split].
  - unfold issued_world. cbn [LIBRIA_KV].
    rewrite kv_get_put_live by lia. reflexivity.
  - intros key' Hne. unfold issued_world. cbn [LIBRIA_KV].
    now apply kv_get_put_other.
  - exact (lookup_within_ttl env p w chat_id c lookup p' q Hq Hvariant Hc Hlive).
Qed.

(** The scenario, looked up as "aBc123" one second after the issuance. *)
Lemma C9_record_keyed_by_activation_code_witness :
  let issued :=
    snd (handleTelegramWebhook
           (webhook_request (Parsed (telegram_update (JNum 42) "/start abc123")))
           scenario_env (quiet 1000) fresh_workers_kv) in
  kv_get (LIBRIA_KV issued) 2000 "codigo:ABC123"
  = Some (JObj [("chat_id", JNum 42); ("firma", JStr (calcularFirma "ABC123" "s3cr3t"));
                ("timestamp", JNum 1000)]) /\
  (forall key', "codigo:ABC123" <> key' ->
     kv_get (LIBRIA_KV issued) 2000 key' = kv_get (LIBRIA_KV fresh_workers_kv) 2000 key') /\
  handleGetChatId (lookup_request [("codigo", "aBc123")]) scenario_env (quiet 2000) issued
  = (Ok {| payload := JsonBody (JObj [("chat_id", JNum 42); ("timestamp", JNum 1000)]);
           status := 200 |},
     issued).
Proof.
  apply (C9_record_keyed_by_activation_code
           (webhook_request (Parsed (telegram_update (JNum 42) "/start abc123")))
           scenario_env (quiet 1000) fresh_workers_kv
           (telegram_update (JNum 42) "/start abc123") (JNum 42) "abc123"
           (lookup_request [("codigo", "aBc123")]) (quiet 2000) "aBc123").
  - reflexivity.
  - exists (JObj [("message_id", JNum 1);
                  ("chat", JObj [("id", JNum 42); ("type", JStr "private")]);
                  ("text", JStr "/start abc123")]),
           (JObj [("id", JNum 42); ("type", JStr "private")]).
    repeat split.
  - reflexivity.
  - discriminate.
  - repeat split.
  - reflexivity.
  - reflexivity.
  - simpl. lia.
Defined.

(** ** Expiry *)

(** C5, as stated, fails: the handler treats a record as absent only when
    the namespace does.  On a namespace that keeps a key until it is
    overwritten, the record issued at instant 1000 is still returned a day
    later. *)
Lemma C5_lookup_after_ttl_on_namespace_without_expiry :
  let issued :=
    snd (handleTelegramWebhook
           (webhook_request (Parsed (telegram_update (JNum 42) "/start abc123")))
           scenario_env (quiet 1000) fresh_forever_kv) in
  fst (handleGetChatId (lookup_request [("codigo", "abc123")])
         scenario_env (quiet 86401000) issued)
  = Ok (found (JNum 42) (JNum 1000)).
Proof. vm_compute. reflexivity. Qed.

(** C5, amended.  Every write of the webhook handler carries a time to
    live of 600 seconds; and on a namespace that honours the time to live,
    a lookup made 600 seconds or more after the issuance is answered 404,
    the answer given for a code that was never issued.  The handler makes
    no expiry check of its own. *)
Theorem C5_expired_record_reads_as_never_issued
    {S : Type} `{ExpiringKV S}
    (request : Request) (env : Env) (p : Platform) (w : World S)
    (update chat_id : json) (c : string)
    (lookup : Request) (p' : Platform) (q : string) (never : World S) :
  body request = Parsed update ->
  chat_event update chat_id ("/start " +:+ c) ->
  no_space c = true ->
  c <> EmptyString ->
  no_rejection p ->
  searchParams_get (searchParams lookup) "codigo" = Some q ->
  case_variant q c = true ->
  (Date_now p + 600000 <= Date_now p')%Z ->
  kv_get (LIBRIA_KV never) (Date_now p') ("codigo:" +:+ JSString.toUpperCase c) = None ->
  let issued := snd (handleTelegramWebhook request env p w) in
  (forall (r : Request) (e : Env) (t : Platform) (v : World S),
     LIBRIA_KV (snd (handleTelegramWebhook r e t v)) = LIBRIA_KV v \/
     exists key props,
       LIBRIA_KV (snd (handleTelegramWebhook r e t v))
       = kv_put (LIBRIA_KV v) (Date_now t) key (JObj props) 600) /\
  handleGetChatId lookup env p' issued = (Ok not_found, issued) /\
  fst (handleGetChatId lookup env p' issued) = fst (handleGetChatId lookup env p' never).
Proof.
  intros Hbody Hevent Hns Hc Hquiet Hq Hvariant Hlate Hnever issued.
  unfold issued.
  rewrite (webhook_issues request env p w update chat_id c Hbody Hevent Hns Hquiet).
  cbn [snd].
  pose proof (lookup_after_ttl env p w chat_id c lookup p' q Hq Hvariant Hc Hlate) as Hgone.
  split; [| split].
  - intros r e t v. apply webhook_store_effect.
  - exact Hgone.
  - rewrite Hgone.
    now rewrite (lookup_never_issued env c lookup p' q Hq Hvariant Hc never Hnever).
Qed.

(** The scenario on Workers KV, looked up 600 seconds after the issuance. *)
Lemma C5_expired_record_reads_as_never_issued_witness :
  let issued :=
    snd (handleTelegramWebhook
           (webhook_request (Parsed (telegram_update (JNum 42) "/start abc123")))
           scenario_env (quiet 1000) fresh_workers_kv) in
  (forall (r : Request) (e : Env) (t : Platform) (v : World WorkersKV),
     LIBRIA_KV (snd (handleTelegramWebhook r e t v)) = LIBRIA_KV v \/
     exists key props,
       LIBRIA_KV (snd (handleTelegramWebhook r e t v))
       = kv_put (LIBRIA_KV v) (Date_now t) key (JObj props) 600) /\
  handleGetChatId (lookup_request [("codigo", "abc123")]) scenario_env (quiet 601000) issued
  = (Ok not_found, issued) /\
  fst (handleGetChatId (lookup_request [("codigo", "abc123")]) scenario_env (quiet 601000) issued)
  = fst (handleGetChatId (lookup_request [("codigo", "abc123")]) scenario_env (quiet 601000)
           fresh_workers_kv).
Proof.
  apply (C5_expired_record_reads_as_never_issued
           (webhook_request (Parsed (telegram_update (JNum 42) "/start abc123")))
           scenario_env (quiet 1000) fresh_workers_kv
           (telegram_update (JNum 42) "/start abc123") (JNum 42) "abc123"
           (lookup_request [("codigo", "abc123")]) (quiet 601000) "abc123"
           fresh_workers_kv).
  - reflexivity.
  - exists (JObj [("message_id", JNum 1);
                  ("chat", JObj [("id", JNum 42); ("type", JStr "private")]);
                  ("text", JStr "/start abc123")]),
           (JObj [("id", JNum 42); ("type", JStr "private")]).
    repeat split.
  - reflexivity.
  - discriminate.
  - repeat split.
  - reflexivity.
  - reflexivity.
  - simpl. lia.
  - reflexivity.
Defined.

(** ** The lookup endpoint *)

(** C3. For every GET request to the lookup endpoint, in a namespace whose
    stored values are records (none is the JSON text [null], which the
    Issuer never writes): without a [codigo] parameter, or with an empty
    one, the answer is 400 with an error body; with a parameter whose
    upper-cased code has no stored record, never issued or expired, the
    answer is 404 with an error body; otherwise the answer is 200 with the
    [chat_id] and [timestamp] of the stored record.  The world is left as it
    is. *)
Theorem C3_lookup_endpoint_responses
    {S : Type} `{KVNamespace S}
    (request : Request) (env : Env) (p : Platform) (w : World S) :
  (forall key, kv_get (LIBRIA_KV w) (Date_now p) key <> Some JNull) ->
  handleGetChatId request env p w
  = (Ok (lookup_endpoint_spec (searchParams_get (searchParams request) "codigo")
           (kv_get (LIBRIA_KV w) (Date_now p))),
     w)
  /\ worker_fetch
       {| method := "GET"; pathname := "/get-chat-id";
          searchParams := searchParams request; body := body request |} env p w
     = handleGetChatId request env p w.
Proof.
  intros Hrecords. split; [now apply lookup_run | reflexivity].
Qed.

Lemma stored_world_not_null (firma : string) (now : Z) (key : string) :
  kv_get (LIBRIA_KV (stored_world firma)) now key <> Some JNull.
Proof.
  simpl. destruct (decide ("codigo:ABC123" = key)) as [<- | Hne].
  - rewrite lookup_insert_eq. destruct (now <? 1000 + 1000 * 600)%Z; discriminate.
  - rewrite lookup_insert_ne by exact Hne. now rewrite lookup_empty.
Qed.

(** A lookup in a world that holds the record of the scenario. *)
Lemma C3_lookup_endpoint_responses_witness :
  let lookup := lookup_request [("codigo", "abc123")] in
  handleGetChatId lookup scenario_env (quiet 2000) (stored_world "F5C79495")
  = (Ok (found (JNum 42) (JNum 1000)), stored_world "F5C79495")
  /\ worker_fetch lookup scenario_env (quiet 2000) (stored_world "F5C79495")
     = handleGetChatId lookup scenario_env (quiet 2000) (stored_world "F5C79495").
Proof.
  intros lookup.
  destruct (C3_lookup_endpoint_responses lookup scenario_env (quiet 2000)
              (stored_world "F5C79495")
              (fun key => stored_world_not_null "F5C79495" 2000 key))
    as [Hrun Hroute].
  split; [rewrite Hrun; vm_compute; reflexivity | exact Hroute].
Defined.

(** The three answers of the endpoint on the world of the scenario. *)
Example lookup_endpoint_scenario :
  let issued :=
    snd (handleTelegramWebhook
           (webhook_request (Parsed (telegram_update (JNum 42) "/start abc123")))
           scenario_env (quiet 1000) fresh_workers_kv) in
  fst (handleGetChatId (lookup_request [("codigo", "")]) scenario_env (quiet 2000) issued)
  = Ok missing_parameter /\
  fst (handleGetChatId (lookup_request [("codigo", "other")]) scenario_env (quiet 2000) issued)
  = Ok not_found /\
  fst (handleGetChatId (lookup_request [("codigo", "ABC123")]) scenario_env (quiet 2000) issued)
  = Ok (found (JNum 42) (JNum 1000)).
Proof. vm_compute. repeat split. Qed.

(** ** The usage error *)

(** C4, at the text "/start " (the command, a space, no code).  The guard
    [parts.length < 2] lets the empty second part through: the chat gets
    the confirmation, not the usage message, and a record is written under
    the key "codigo:", which no lookup can reach, an empty [codigo] being
    answered 400. *)
Lemma C4_start_with_empty_code_is_issued :
  let run :=
    handleTelegramWebhook
      (webhook_request (Parsed (telegram_update (JNum 42) "/start ")))
      scenario_env (quiet 1000) fresh_workers_kv in
  JSString.split " " "/start " = ["/start"; EmptyString] /\
  fst run = Ok (new_Response "OK" 200) /\
  outbox (snd run) = [confirmation_call scenario_env (JNum 42) "3C81CC94"] /\
  outbox (snd run) <> [usage_call scenario_env (JNum 42)] /\
  kv_get (LIBRIA_KV (snd run)) 1000 "codigo:"
  = Some (issued_record (JNum 42) "3C81CC94" 1000) /\
  fst (handleGetChatId (lookup_request [("codigo", "")]) scenario_env (quiet 1000) (snd run))
  = Ok missing_parameter.
Proof. vm_compute. repeat split. discriminate. Qed.

(** The same slip with two spaces before the code: the second part of
    "/start  abc123" is empty, the record goes under "codigo:" and a lookup
    of abc123 finds nothing. *)
Example start_with_two_spaces :
  let run :=
    handleTelegramWebhook
      (webhook_request (Parsed (telegram_update (JNum 42) "/start  abc123")))
      scenario_env (quiet 1000) fresh_workers_kv in
  JSString.split " " "/start  abc123" = ["/start"; EmptyString; "abc123"] /\
  kv_get (LIBRIA_KV (snd run)) 1000 "codigo:"
  = Some (issued_record (JNum 42) "3C81CC94" 1000) /\
  fst (handleGetChatId (lookup_request [("codigo", "abc123")]) scenario_env (quiet 1000)
         (snd run))
  = Ok not_found.
Proof. vm_compute. repeat split. Qed.

(** ** Failures inside the webhook handler *)

(** C6. Whenever anything inside the [try] block of the webhook handler
    throws (the parse of the body, the hash, the store write or the
    outbound call), the handler does not throw: it logs the error and
    answers 500, and no call was delivered to the chat, before or after the
    failure. *)
Theorem C6_webhook_failure_is_caught
    {S : Type} `{KVNamespace S}
    (request : Request) (env : Env) (p : Platform) (w : World S)
    (error : exn) (w1 : World S) :
  handleTelegramWebhook_try request env p w = (Throw error, w1) ->
  fst (handleTelegramWebhook request env p w) = Ok (new_Response "Error" 500) /\
  outbox (snd (handleTelegramWebhook request env p w)) = outbox w1 /\
  outbox w1 = outbox w /\
  console (snd (handleTelegramWebhook request env p w)) = console w ++ [error].
Proof.
  intros Htry.
  destruct (webhook_catch request env p w error w1 Htry) as (Hrun & Ho & _).
  rewrite Hrun. cbn [fst snd outbox console]. auto.
Qed.

(** A body that is not JSON: [request.json()] throws a [SyntaxError]. *)
Lemma C6_webhook_failure_is_caught_witness :
  fst (handleTelegramWebhook (webhook_request Malformed) scenario_env (quiet 1000)
         fresh_workers_kv)
  = Ok (new_Response "Error" 500) /\
  outbox (snd (handleTelegramWebhook (webhook_request Malformed) scenario_env (quiet 1000)
                 fresh_workers_kv))
  = outbox fresh_workers_kv /\
  outbox fresh_workers_kv = outbox fresh_workers_kv /\
  console (snd (handleTelegramWebhook (webhook_request Malformed) scenario_env (quiet 1000)
                  fresh_workers_kv))
  = console fresh_workers_kv ++ [SyntaxError].
Proof.
  apply (C6_webhook_failure_is_caught (webhook_request Malformed) scenario_env (quiet 1000)
           fresh_workers_kv SyntaxError fresh_workers_kv).
  reflexivity.
Defined.

(** The four failure points of C6, each reaching the [catch]. *)
Section FailurePoints.
Context {S : Type} `{KVNamespace S}.
Variables (request : Request) (env : Env) (p : Platform) (w : World S).
Variables (update chat_id : json) (c : string).
Hypothesis Hbody : body request = Parsed update.
Hypothesis Hevent : chat_event update chat_id ("/start " +:+ c).
Hypothesis Hns : no_space c = true.

Lemma parse_failure (r : Request) :
  body r = Malformed ->
  handleTelegramWebhook_try r env p w = (Throw SyntaxError, w).
Proof. intros Hr. run_handler. now rewrite Hr. Qed.

Lemma hash_failure :
  crypto_rejects p = true ->
  handleTelegramWebhook_try request env p w = (Throw CryptoError, w).
Proof.
  intros Hcrypto.
  apply chat_event_optional_text in Hevent
    as (message & chat & Hm & Hot & Ht & Hch & Hid).
  run_handler.
  step Hbody. step Hm. step Hot. step startsWith_start.
  step Hch. step Hid. step Ht. step (split_start c Hns).
  simpl. now rewrite Hcrypto.
Qed.

Lemma store_write_failure :
  crypto_rejects p = false ->
  kv_put_rejects p = true ->
  handleTelegramWebhook_try request env p w = (Throw KVError, w).
Proof.
  intros Hcrypto Hput.
  apply chat_event_optional_text in Hevent
    as (message & chat & Hm & Hot & Ht & Hch & Hid).
  run_handler.
  step Hbody. step Hm. step Hot. step startsWith_start.
  step Hch. step Hid. step Ht. step (split_start c Hns).
  simpl. now rewrite Hcrypto, Hput.
Qed.

(** The outbound call comes last: when it fails the record is already
    written. *)
Lemma outbound_call_failure :
  crypto_rejects p = false ->
  kv_put_rejects p = false ->
  fetch_rejects p = true ->
  handleTelegramWebhook_try request env p w
  = (Throw FetchError,
     {| LIBRIA_KV := LIBRIA_KV (issued_world env p w chat_id (JSString.toUpperCase c));
        outbox := outbox w;
        console := console w |}).
Proof.
  intros Hcrypto Hput Hfetch.
  apply chat_event_optional_text in Hevent
    as (message & chat & Hm & Hot & Ht & Hch & Hid).
  run_handler.
  step Hbody. step Hm. step Hot. step startsWith_start.
  step Hch. step Hid. step Ht. step (split_start c Hns).
  simpl. now rewrite Hcrypto, Hput, Hfetch.
Qed.

End FailurePoints.

(** ** The lookup has no side effect *)

(** C7. A lookup changes nothing: for every world and every lookup request
    the world after the lookup is the world before it, so a later lookup is
    answered as if the first had not been made.  In particular two lookups
    of the same code, both within 600 seconds of its issuance, get the same
    answer: the first does not consume the record. *)
Theorem C7_lookup_has_no_side_effect
    {S : Type} `{ExpiringKV S}
    (env : Env) (p : Platform) (w : World S) (chat_id : json) (c : string)
    (lookup : Request) (p1 p2 : Platform) (q : string) :
  searchParams_get (searchParams lookup) "codigo" = Some q ->
  case_variant q c = true ->
  c <> EmptyString ->
  (Date_now p <= Date_now p1 < Date_now p + 600000)%Z ->
  (Date_now p <= Date_now p2 < Date_now p + 600000)%Z ->
  let issued := issued_world env p w chat_id (JSString.toUpperCase c) in
  (forall (r : Request) (e : Env) (t t' : Platform) (v : World S),
     snd (handleGetChatId r e t v) = v /\
     handleGetChatId r e t' (snd (handleGetChatId r e t v)) = handleGetChatId r e t' v) /\
  fst (handleGetChatId lookup env p2 (snd (handleGetChatId lookup env p1 issued)))
  = fst (handleGetChatId lookup env p1 issued) /\
  LIBRIA_KV (snd (handleGetChatId lookup env p2 (snd (handleGetChatId lookup env p1 issued))))
  = LIBRIA_KV issued.
Proof.
  intros Hq Hvariant Hc Hlive1 Hlive2 issued.
  split.
  - intros r e t t' v. rewrite lookup_frame. auto.
  - rewrite !lookup_frame. unfold issued.
    rewrite (lookup_within_ttl env p w chat_id c lookup p1 q Hq Hvariant Hc Hlive1).
    rewrite (lookup_within_ttl env p w chat_id c lookup p2 q Hq Hvariant Hc Hlive2).
    auto.
Qed.

(** Two lookups, one and two seconds after the issuance. *)
Lemma C7_lookup_has_no_side_effect_witness :
  let issued := issued_world scenario_env (quiet 1000) fresh_workers_kv (JNum 42) "ABC123" in
  let lookup := lookup_request [("codigo", "abc123")] in
  (forall (r : Request) (e : Env) (t t' : Platform) (v : World WorkersKV),
     snd (handleGetChatId r e t v) = v /\
     handleGetChatId r e t' (snd (handleGetChatId r e t v)) = handleGetChatId r e t' v) /\
  fst (handleGetChatId lookup scenario_env (quiet 3000)
         (snd (handleGetChatId lookup scenario_env (quiet 2000) issued)))
  = fst (handleGetChatId lookup scenario_env (quiet 2000) issued) /\
  LIBRIA_KV (snd (handleGetChatId lookup scenario_env (quiet 3000)
                    (snd (handleGetChatId lookup scenario_env (quiet 2000) issued))))
  = LIBRIA_KV issued.
Proof.
  apply (C7_lookup_has_no_side_effect scenario_env (quiet 1000) fresh_workers_kv (JNum 42)
           "abc123" (lookup_request [("codigo", "abc123")]) (quiet 2000) (quiet 3000)
           "abc123").
  - reflexivity.
  - reflexivity.
  - discriminate.
  - simpl. lia.
  - simpl. lia.
Defined.

(** ** Updates without the command *)

(** C8, as stated, fails: a body that is not JSON contains no message that
    begins with the command, and is answered 500, not 200; so are the body
    [null] and a message whose text is a number. *)
Lemma C8_body_without_command_answered_500 :
  has_start_command Malformed = false /\
  fst (handleTelegramWebhook (webhook_request Malformed) scenario_env (quiet 1000)
         fresh_workers_kv)
  = Ok (new_Response "Error" 500) /\
  has_start_command (Parsed JNull) = false /\
  fst (handleTelegramWebhook (webhook_request (Parsed JNull)) scenario_env (quiet 1000)
         fresh_workers_kv)
  = Ok (new_Response "Error" 500) /\
  has_start_command (Parsed (JObj [("message", JObj [("text", JNum 5)])])) = false /\
  fst (handleTelegramWebhook
         (webhook_request (Parsed (JObj [("message", JObj [("text", JNum 5)])])))
         scenario_env (quiet 1000) fresh_workers_kv)
  = Ok (new_Response "Error" 500).
Proof. vm_compute. repeat split. Qed.

(** C8, amended.  For every webhook request whose body does not contain a
    message with a text that begins with "/start", the handler writes
    nothing to the store and delivers no call; it answers 200 with the text
    "OK" when the body is JSON other than [null] in which the message, or
    its text, is missing or [null], or the text is a string that does not
    begin with the command; and it answers 500 with the text "Error" when
    the body is not JSON, is [null], or the text is not a string. *)
Theorem C8_update_without_command_is_ignored
    {S : Type} `{KVNamespace S}
    (request : Request) (env : Env) (p : Platform) (w : World S) :
  has_start_command (body request) = false ->
  let run := handleTelegramWebhook request env p w in
  fst run = Ok (ignored_response (body request)) /\
  LIBRIA_KV (snd run) = LIBRIA_KV w /\
  outbox (snd run) = outbox w.
Proof.
  intros Hno run. unfold run. clear run.
  unfold has_start_command, message_text in Hno.
  unfold ignored_response, message_text.
  run_handler.
  destruct (body request) as [| update]; [auto |].
  destruct update as [| b | z | s | items | props]; run_handler; simpl; auto.
  destruct (own_property props "message") as [message |]; run_handler; simpl; auto.
  destruct message as [| b | z | s | items | mprops]; run_handler; simpl; auto.
  destruct (own_property mprops "text") as [text |]; run_handler; simpl; auto.
  destruct text as [| b | z | s | items | tprops]; run_handler; simpl; auto.
  rewrite Hno. auto.
Qed.

(** A message whose text is "hello". *)
Lemma C8_update_without_command_is_ignored_witness :
  let run :=
    handleTelegramWebhook
      (webhook_request (Parsed (telegram_update (JNum 42) "hello")))
      scenario_env (quiet 1000) fresh_workers_kv in
  fst run = Ok (new_Response "OK" 200) /\
  LIBRIA_KV (snd run) = LIBRIA_KV fresh_workers_kv /\
  outbox (snd run) = outbox fresh_workers_kv.
Proof.
  apply (C8_update_without_command_is_ignored
           (webhook_request (Parsed (telegram_update (JNum 42) "hello")))
           scenario_env (quiet 1000) fresh_workers_kv).
  reflexivity.
Defined.

(** ** The signature stays in the store *)

Lemma stringify_two_without_firma (chat_id timestamp : js_value) :
  record_field (JSON_stringify_object [("chat_id", chat_id); ("timestamp", timestamp)])
    "firma"
  = undefined.
Proof. destruct chat_id, timestamp; reflexivity. Qed.

(** C10. The answer of a lookup never carries the signature: its JSON body
    has no [firma] property, and for any two worlds whose stored records
    differ at most in their [firma] property the answers to a lookup are
    the same. *)
Theorem C10_lookup_does_not_reveal_firma
    {S : Type} `{KVNamespace S}
    (request : Request) (env : Env) (p : Platform) (w1 w2 : World S) :
  (forall key,
     same_but_firma (kv_get (LIBRIA_KV w1) (Date_now p) key)
                    (kv_get (LIBRIA_KV w2) (Date_now p) key)) ->
  fst (handleGetChatId request env p w1) = fst (handleGetChatId request env p w2) /\
  (forall response,
     fst (handleGetChatId request env p w1) = Ok response ->
     response_field response "firma" = undefined).
Proof.
  intros Hsame. run_handler.
  destruct (searchParams_get (searchParams request) "codigo") as [[| a q] |];
    try (split; [reflexivity | intros response [= <-]; reflexivity]).
  run_handler.
  specialize (Hsame ("codigo:" +:+ JSString.toUpperCase (String a q))).
  destruct (kv_get (LIBRIA_KV w1) (Date_now p)
              ("codigo:" +:+ JSString.toUpperCase (String a q))) as [[| | | | | props1] |],
           (kv_get (LIBRIA_KV w2) (Date_now p)
              ("codigo:" +:+ JSString.toUpperCase (String a q))) as [[| | | | | props2] |];
    simpl in Hsame; try contradiction.
  - simpl. rewrite (Hsame "chat_id"), (Hsame "timestamp") by discriminate.
    split; [reflexivity |].
    intros response [= <-]. apply stringify_two_without_firma.
  - split; [reflexivity | intros response [= <-]; reflexivity].
Qed.

Lemma stored_worlds_differ_in_firma (f1 f2 : string) (now : Z) (key : string) :
  same_but_firma (kv_get (LIBRIA_KV (stored_world f1)) now key)
                 (kv_get (LIBRIA_KV (stored_world f2)) now key).
Proof.
  unfold stored_world, fresh_workers_kv, empty_world.
  cbn [LIBRIA_KV kv_get kv_put WorkersKV_namespace kv_entries].
  destruct (decide ("codigo:ABC123" = key)) as [<- | Hne].
  - rewrite !lookup_insert_eq. destruct (now <? 1000 + 1000 * 600)%Z; [| exact I].
    unfold same_but_firma, issued_record. intros k Hk. cbn [own_property].
    apply not_eq_sym, String.eqb_neq in Hk. now rewrite Hk.
  - rewrite !lookup_insert_ne by exact Hne. rewrite lookup_empty. exact I.
Qed.

(** Two worlds whose record differs in the signature only. *)
Lemma C10_lookup_does_not_reveal_firma_witness :
  let lookup := lookup_request [("codigo", "abc123")] in
  fst (handleGetChatId lookup scenario_env (quiet 2000) (stored_world "F5C79495"))
  = fst (handleGetChatId lookup scenario_env (quiet 2000) (stored_world "00000000")) /\
  (forall response,
     fst (handleGetChatId lookup scenario_env (quiet 2000) (stored_world "F5C79495"))
     = Ok response ->
     response_field response "firma" = undefined).
Proof.
  apply (C10_lookup_does_not_reveal_firma (lookup_request [("codigo", "abc123")])
           scenario_env (quiet 2000) (stored_world "F5C79495") (stored_world "00000000")).
  intros key. apply stored_worlds_differ_in_firma.
Defined.

(** ** Worlds the worker builds hold records only *)




(* ================================================================== *)
(** * Further properties of the worker                                 *)
(* ================================================================== *)

(** ** Pieces of a text *)

Lemma split_pieces (s : string) :
  JSString.split " " s
  = until_space s
    :: (if no_space s then [] else JSString.split " " (after_first_space s)).
Proof.
  induction s as [| c s IH]; [reflexivity |].
  simpl. destruct (Ascii.eqb c " "); simpl; [reflexivity |].
  rewrite IH. reflexivity.
Qed.

Lemma split_second_piece (text : string) :
  no_space text = false ->
  (length (JSString.split " " text) <? 2)%nat = false /\
  nth 1 (JSString.split " " text) EmptyString = second_piece text.
Proof.
  intros Hspace. rewrite (split_pieces text), Hspace.
  rewrite (split_pieces (after_first_space text)).
  split; reflexivity.
Qed.

Lemma until_space_no_space (s : string) : no_space (until_space s) = true.
Proof.
  induction s as [| c s IH]; [reflexivity |].
  simpl. destruct (Ascii.eqb c " ") eqn:Hc; [reflexivity |].
  simpl. now rewrite Hc, IH.
Qed.

Lemma toUpperCase_char_idempotent (c : ascii) :
  JSString.toUpperCase_char (JSString.toUpperCase_char c) = JSString.toUpperCase_char c.
Proof.
  apply Ascii.eqb_eq.
  apply (ascii_cases (fun c =>
    Ascii.eqb (JSString.toUpperCase_char (JSString.toUpperCase_char c))
              (JSString.toUpperCase_char c))).
  vm_compute. reflexivity.
Qed.

Lemma toUpperCase_idempotent (s : string) :
  JSString.toUpperCase (JSString.toUpperCase s) = JSString.toUpperCase s.
Proof.
  induction s as [| c s IH]; [reflexivity |].
  simpl. now rewrite toUpperCase_char_idempotent, IH.
Qed.

Lemma toUpperCase_char_space (c : ascii) :
  Ascii.eqb (JSString.toUpperCase_char c) " " = Ascii.eqb c " ".
Proof.
  pose proof (ascii_cases (fun c =>
    Bool.eqb (Ascii.eqb (JSString.toUpperCase_char c) " ") (Ascii.eqb c " "))
    ltac:(vm_compute; reflexivity) c) as Hc.
  now apply Bool.eqb_prop in Hc.
Qed.

Lemma toUpperCase_no_space (s : string) :
  no_space (JSString.toUpperCase s) = no_space s.
Proof.
  induction s as [| c s IH]; [reflexivity |].
  simpl. now rewrite toUpperCase_char_space, IH.
Qed.

Lemma codigo_key_injective (a b : string) :
  "codigo:" +:+ a = "codigo:" +:+ b -> a = b.
Proof. cbv [String.append]. now intros [= ->]. Qed.

Lemma case_variant_no_space (q c : string) :
  case_variant q c = true -> no_space q = no_space c.
Proof.
  intros Hqc.
  rewrite <- (toUpperCase_no_space q), <- (toUpperCase_no_space c).
  now rewrite (case_variant_upper q c Hqc).
Qed.

(** ** Hexadecimal text read back *)

Lemma decode_render_byte (b : N) :
  (b < 256)%N ->
  hex_value (HEX_digit (b / 16)) = Some (b / 16)%N /\
  hex_value (HEX_digit (b mod 16)) = Some (b mod 16)%N.
Proof.
  revert b.
  apply (byte_cases _ (fun b =>
    match hex_value (HEX_digit (b / 16)), hex_value (HEX_digit (b mod 16)) with
    | Some x, Some y => N.eqb x (b / 16) && N.eqb y (b mod 16)
    | _, _ => false
    end)).
  - intros b.
    destruct (hex_value (HEX_digit (b / 16))) as [x |]; [| discriminate].
    destruct (hex_value (HEX_digit (b mod 16))) as [y |]; [| discriminate].
    intros [Hx Hy]%andb_prop.
    apply N.eqb_eq in Hx, Hy. now subst.
  - vm_compute. reflexivity.
Qed.

Lemma decode_render_upper_hex (bytes : list N) :
  Forall (fun b => (b < 256)%N) bytes ->
  decode_hex (render_upper_hex bytes) = Some bytes.
Proof.
  induction 1 as [| b bytes Hb _ IH]; [reflexivity |].
  destruct (decode_render_byte b Hb) as [Hhi Hlo].
  change (match hex_value (HEX_digit (b / 16)), hex_value (HEX_digit (b mod 16)),
                decode_hex (render_upper_hex bytes) with
          | Some x, Some y, Some l => Some ((16 * x + y)%N :: l)
          | _, _, _ => None
          end = Some (b :: bytes)).
  rewrite Hhi, Hlo, IH. f_equal. f_equal.
  rewrite N.add_comm, N.mul_comm. symmetry. rewrite N.add_comm, N.mul_comm.
  apply N.div_mod. discriminate.
Qed.

(** X12. Read back as hexadecimal, the verification code is the first four
    bytes of the HMAC-SHA256 signature, leading zeros included: a byte
    below 16 still takes two characters. *)
Theorem X12_code_decodes_to_signature_prefix (codigo secret : string) :
  decode_hex (calcularFirma codigo secret)
  = Some (firstn 4 (SHA256.hmac_sha256 (TextEncoder_encode secret)
                      (TextEncoder_encode codigo))).
Proof.
  unfold calcularFirma.
  rewrite firma_of_signature.
  - apply decode_render_upper_hex, Forall_take, hmac_sha256_bytes.
  - rewrite hmac_sha256_length. lia.
  - apply hmac_sha256_bytes.
Qed.

(** ** The two branches after the command is recognised *)

Section CommandRuns.
Context {S : Type} `{KVNamespace S}.
Variables (request : Request) (env : Env) (p : Platform) (w : World S).
Variables (update message : json) (text : string).
Hypothesis Hbody : body request = Parsed update.
Hypothesis Hmessage : member (Some update) "message" = Ok (Some message).
Hypothesis Htext : member (Some message) "text" = Ok (Some (JStr text)).
Hypothesis Hstart : JSString.startsWith text "/start" = true.

Lemma command_optional_text :
  optional_member (Some message) "text" = Ok (Some (JStr text)).
Proof. destruct message; try discriminate; exact Htext. Qed.

(** Without a chat the handler stops before it looks at the code. *)
Lemma command_without_chat :
  member (Some message) "chat" = Ok undefined \/
  member (Some message) "chat" = Ok (Some JNull) ->
  handleTelegramWebhook request env p w
  = (Ok (new_Response "Error" 500),
     {| LIBRIA_KV := LIBRIA_KV w; outbox := outbox w;
        console := console w ++ [TypeError] |}).
Proof.
  intros [Hchat | Hchat]; run_handler;
    step Hbody; step Hmessage; step command_optional_text; step Hstart;
    step Hchat; reflexivity.
Qed.

(** With a chat and a space in the text, the code is the second piece. *)
Lemma command_with_space (chat : json) (chatId : js_value) :
  member (Some message) "chat" = Ok (Some chat) ->
  member (Some chat) "id" = Ok chatId ->
  no_space text = false ->
  handleTelegramWebhook_try request env p w
  = (firma <- await_calcularFirma p (JSString.toUpperCase (second_piece text))
                (TELEGRAM_SECRET_KEY env);
     LIBRIA_KV_put p ("codigo:" +:+ JSString.toUpperCase (second_piece text))
       (JSON_stringify_object
          [("chat_id", chatId);
           ("firma", Some (JStr firma));
           ("timestamp", Some (JNum (Date_now p)))])
       600;;
     sendTelegramMessage env p chatId (confirmation_message firma) true;;
     ret (new_Response "OK" 200))%js w.
Proof.
  intros Hchat Hid Hspace.
  destruct (split_second_piece text Hspace) as [Hlen Hnth].
  unfold handleTelegramWebhook_try at 1.
  cbv beta iota zeta delta [bind lift ret throw request_json optional_startsWith js_not].
  rewrite Hbody. cbv beta iota. rewrite Hmessage. cbv beta iota.
  rewrite command_optional_text. cbv beta iota. rewrite Hstart. cbv beta iota.
  rewrite Hchat. cbv beta iota. rewrite Hid. cbv beta iota.
  rewrite Htext. cbv beta iota zeta. rewrite Hlen, Hnth. reflexivity.
Qed.

End CommandRuns.

Lemma until_space_id (s : string) : no_space s = true -> until_space s = s.
Proof.
  induction s as [| c s IH]; [reflexivity |].
  simpl. intros [Hc Hs]%andb_prop. apply negb_true_iff in Hc.
  now rewrite Hc, (IH Hs).
Qed.

Lemma second_piece_start (c : string) :
  no_space c = true ->
  no_space ("/start " +:+ c) = false /\ second_piece ("/start " +:+ c) = c.
Proof.
  intros Hc. cbv [String.append]. split; [reflexivity |].
  unfold second_piece. simpl. now apply until_space_id.
Qed.

(** X1. For every chat event whose text begins with the command and holds
    no space, when the outbound call is not rejected: the usage message is
    delivered to the originating chat as plain text, nothing is written to
    the store, nothing is logged, and the answer is 200. *)
Theorem X1_usage_message_when_no_space
    {S : Type} `{KVNamespace S}
    (request : Request) (env : Env) (p : Platform) (w : World S)
    (update chat_id : json) (text : string) :
  body request = Parsed update ->
  chat_event update chat_id text ->
  JSString.startsWith text "/start" = true ->
  no_space text = true ->
  fetch_rejects p = false ->
  let run := handleTelegramWebhook request env p w in
  fst run = Ok (new_Response "OK" 200) /\
  LIBRIA_KV (snd run) = LIBRIA_KV w /\
  console (snd run) = console w /\
  outbox (snd run)
  = outbox w ++ [{| call_url := sendMessage_url env;
                    call_body := JObj [("chat_id", chat_id);
                                       ("text", JStr usage_message)] |}].
Proof.
  intros Hbody Hevent Hstart Hns Hfetch run. unfold run.
  rewrite (webhook_usage request env p w update chat_id text
             Hbody Hevent Hstart Hns Hfetch).
  repeat split.
Qed.

(** The bare command, and the command glued to other characters. *)
Lemma X1_usage_message_when_no_space_witness :
  let run :=
    handleTelegramWebhook
      (webhook_request (Parsed (telegram_update (JNum 42) "/startABC123")))
      scenario_env (quiet 1000) fresh_workers_kv in
  fst run = Ok (new_Response "OK" 200) /\
  LIBRIA_KV (snd run) = LIBRIA_KV fresh_workers_kv /\
  console (snd run) = console fresh_workers_kv /\
  outbox (snd run)
  = outbox fresh_workers_kv
    ++ [{| call_url := sendMessage_url scenario_env;
           call_body := JObj [("chat_id", JNum 42); ("text", JStr usage_message)] |}].
Proof.
  apply (X1_usage_message_when_no_space
           (webhook_request (Parsed (telegram_update (JNum 42) "/startABC123")))
           scenario_env (quiet 1000) fresh_workers_kv
           (telegram_update (JNum 42) "/startABC123") (JNum 42) "/startABC123").
  - reflexivity.
  - exists (JObj [("message_id", JNum 1);
                  ("chat", JObj [("id", JNum 42); ("type", JStr "private")]);
                  ("text", JStr "/startABC123")]),
           (JObj [("id", JNum 42); ("type", JStr "private")]).
    repeat split.
  - reflexivity.
  - reflexivity.
  - reflexivity.
Defined.

(** X2. For every chat event whose text begins with the command and holds
    a space, served without a rejection, the activation code is what stands
    between the first space and the second (or the end), upper-cased,
    whatever comes before the first space or after the second: the record
    goes under "codigo:" followed by it, the chat gets the confirmation, and
    the answer is 200. *)
Theorem X2_code_is_second_piece
    {S : Type} `{KVNamespace S}
    (request : Request) (env : Env) (p : Platform) (w : World S)
    (update chat_id : json) (text : string) :
  body request = Parsed update ->
  chat_event update chat_id text ->
  JSString.startsWith text "/start" = true ->
  no_space text = false ->
  no_rejection p ->
  handleTelegramWebhook request env p w
  = (Ok (new_Response "OK" 200),
     issued_world env p w chat_id (JSString.toUpperCase (second_piece text))).
Proof.
  intros Hbody (message & chat & Hm & Ht & Hch & Hid) Hstart Hspace
         (Hcrypto & Hput & Hfetch).
  unfold handleTelegramWebhook, try_catch.
  rewrite (command_with_space request env p w update message text
             Hbody Hm Ht Hstart chat (Some chat_id) Hch Hid Hspace).
  run_handler. rewrite Hcrypto. run_handler. rewrite Hput. run_handler.
  rewrite Hfetch. reflexivity.
Qed.

(** A bot name glued to the command and words after the code. *)
Lemma X2_code_is_second_piece_witness :
  handleTelegramWebhook
    (webhook_request (Parsed (telegram_update (JNum 42) "/start@LibrIA_bot abc123 por favor")))
    scenario_env (quiet 1000) fresh_workers_kv
  = (Ok (new_Response "OK" 200),
     issued_world scenario_env (quiet 1000) fresh_workers_kv (JNum 42) "ABC123").
Proof.
  apply (X2_code_is_second_piece
           (webhook_request
              (Parsed (telegram_update (JNum 42) "/start@LibrIA_bot abc123 por favor")))
           scenario_env (quiet 1000) fresh_workers_kv
           (telegram_update (JNum 42) "/start@LibrIA_bot abc123 por favor") (JNum 42)
           "/start@LibrIA_bot abc123 por favor").
  - reflexivity.
  - exists (JObj [("message_id", JNum 1);
                  ("chat", JObj [("id", JNum 42); ("type", JStr "private")]);
                  ("text", JStr "/start@LibrIA_bot abc123 por favor")]),
           (JObj [("id", JNum 42); ("type", JStr "private")]).
    repeat split.
  - reflexivity.
  - reflexivity.
  - repeat split.
Defined.

(** X9. A message that begins with the command but comes without a chat
    (the property is missing or [null]) is answered 500: reading the
    identifier of the chat throws before the text is split, so nothing is
    written, nothing is delivered, and a [TypeError] is logged, whether or
    not the text carries a code. *)
Theorem X9_command_without_chat_is_500
    {S : Type} `{KVNamespace S}
    (request : Request) (env : Env) (p : Platform) (w : World S)
    (update message : json) (text : string) :
  body request = Parsed update ->
  member (Some update) "message" = Ok (Some message) ->
  member (Some message) "text" = Ok (Some (JStr text)) ->
  JSString.startsWith text "/start" = true ->
  member (Some message) "chat" = Ok undefined \/
  member (Some message) "chat" = Ok (Some JNull) ->
  handleTelegramWebhook request env p w
  = (Ok (new_Response "Error" 500),
     {| LIBRIA_KV := LIBRIA_KV w; outbox := outbox w;
        console := console w ++ [TypeError] |}).
Proof.
  intros Hbody Hm Ht Hstart Hchat.
  exact (command_without_chat request env p w update message text
           Hbody Hm Ht Hstart Hchat).
Qed.

Lemma X9_command_without_chat_is_500_witness :
  handleTelegramWebhook
    (webhook_request (Parsed (update_without_chat "/start abc123")))
    scenario_env (quiet 1000) fresh_workers_kv
  = (Ok (new_Response "Error" 500),
     {| LIBRIA_KV := LIBRIA_KV fresh_workers_kv; outbox := outbox fresh_workers_kv;
        console := console fresh_workers_kv ++ [TypeError] |}).
Proof.
  apply (X9_command_without_chat_is_500
           (webhook_request (Parsed (update_without_chat "/start abc123")))
           scenario_env (quiet 1000) fresh_workers_kv
           (update_without_chat "/start abc123")
           (JObj [("message_id", JNum 1); ("text", JStr "/start abc123")])
           "/start abc123").
  - reflexivity.
  - reflexivity.
  - reflexivity.
  - reflexivity.
  - left. reflexivity.
Defined.

(** ** What a lookup reads *)

Section LookupReads.
Context {S : Type} `{KVNamespace S}.

(** The answer to a lookup depends on the world through one key only. *)
Lemma lookup_reads_one_key
    (lookup : Request) (env : Env) (p : Platform) (w1 w2 : World S) (q : string) :
  searchParams_get (searchParams lookup) "codigo" = Some q ->
  kv_get (LIBRIA_KV w1) (Date_now p) ("codigo:" +:+ JSString.toUpperCase q)
  = kv_get (LIBRIA_KV w2) (Date_now p) ("codigo:" +:+ JSString.toUpperCase q) ->
  fst (handleGetChatId lookup env p w1) = fst (handleGetChatId lookup env p w2).
Proof.
  intros Hq Hsame. run_handler. rewrite Hq.
  destruct q as [| a q']; [reflexivity |]. run_handler.
  rewrite Hsame.
  destruct (kv_get (LIBRIA_KV w2) (Date_now p)
              ("codigo:" +:+ JSString.toUpperCase (String a q'))) as [[] |];
    reflexivity.
Qed.

Lemma lookup_ignores_case
    (r1 r2 : Request) (env : Env) (p : Platform) (w : World S) (q1 q2 : string) :
  searchParams_get (searchParams r1) "codigo" = Some q1 ->
  searchParams_get (searchParams r2) "codigo" = Some q2 ->
  case_variant q1 q2 = true ->
  handleGetChatId r1 env p w = handleGetChatId r2 env p w.
Proof.
  intros H1 H2 Hvariant. run_handler. rewrite H1, H2.
  pose proof (case_variant_upper q1 q2 Hvariant) as Hupper.
  destruct q1 as [| a1 q1'], q2 as [| a2 q2']; try discriminate; [reflexivity |].
  run_handler. now rewrite Hupper.
Qed.

End LookupReads.

(** X3. In every world, two lookups whose [codigo] parameters differ only
    in the case of their letters get the same answer: the parameter is
    upper-cased before the store is read. *)
Theorem X3_lookup_ignores_letter_case
    {S : Type} `{KVNamespace S}
    (r1 r2 : Request) (env : Env) (p : Platform) (w : World S) (q1 q2 : string) :
  searchParams_get (searchParams r1) "codigo" = Some q1 ->
  searchParams_get (searchParams r2) "codigo" = Some q2 ->
  case_variant q1 q2 = true ->
  handleGetChatId r1 env p w = handleGetChatId r2 env p w.
Proof. apply lookup_ignores_case. Qed.

Lemma X3_lookup_ignores_letter_case_witness :
  handleGetChatId (lookup_request [("codigo", "abC123")]) scenario_env (quiet 2000)
    (stored_world "F5C79495")
  = handleGetChatId (lookup_request [("codigo", "ABc123")]) scenario_env (quiet 2000)
      (stored_world "F5C79495").
Proof.
  apply (X3_lookup_ignores_letter_case
           (lookup_request [("codigo", "abC123")]) (lookup_request [("codigo", "ABc123")])
           scenario_env (quiet 2000) (stored_world "F5C79495") "abC123" "ABc123").
  - reflexivity.
  - reflexivity.
  - reflexivity.
Defined.

(** X11. The issuance ignores the case of the code: two messages
    "/start c" and "/start c'" from the same chat, [c'] being [c] up to the
    case of its letters, served in the same world at the same instant,
    leave the same world and the same answer, with one verification
    code. *)
Theorem X11_issuance_ignores_letter_case
    {S : Type} `{KVNamespace S}
    (r1 r2 : Request) (env : Env) (p : Platform) (w : World S)
    (u1 u2 chat_id : json) (c1 c2 : string) :
  body r1 = Parsed u1 ->
  body r2 = Parsed u2 ->
  chat_event u1 chat_id ("/start " +:+ c1) ->
  chat_event u2 chat_id ("/start " +:+ c2) ->
  no_space c1 = true ->
  case_variant c1 c2 = true ->
  no_rejection p ->
  handleTelegramWebhook r1 env p w = handleTelegramWebhook r2 env p w /\
  calcularFirma (JSString.toUpperCase c1) (TELEGRAM_SECRET_KEY env)
  = calcularFirma (JSString.toUpperCase c2) (TELEGRAM_SECRET_KEY env).
Proof.
  intros Hb1 Hb2 He1 He2 Hns1 Hvariant Hquiet.
  assert (Hns2 : no_space c2 = true)
    by (now rewrite <- (case_variant_no_space c1 c2 Hvariant)).
  rewrite (webhook_issues r1 env p w u1 chat_id c1 Hb1 He1 Hns1 Hquiet).
  rewrite (webhook_issues r2 env p w u2 chat_id c2 Hb2 He2 Hns2 Hquiet).
  now rewrite (case_variant_upper c1 c2 Hvariant).
Qed.

Lemma X11_issuance_ignores_letter_case_witness :
  handleTelegramWebhook
    (webhook_request (Parsed (telegram_update (JNum 42) "/start abc123")))
    scenario_env (quiet 1000) fresh_workers_kv
  = handleTelegramWebhook
      (webhook_request (Parsed (telegram_update (JNum 42) "/start AbC123")))
      scenario_env (quiet 1000) fresh_workers_kv /\
  calcularFirma (JSString.toUpperCase "abc123") (TELEGRAM_SECRET_KEY scenario_env)
  = calcularFirma (JSString.toUpperCase "AbC123") (TELEGRAM_SECRET_KEY scenario_env).
Proof.
  apply (X11_issuance_ignores_letter_case
           (webhook_request (Parsed (telegram_update (JNum 42) "/start abc123")))
           (webhook_request (Parsed (telegram_update (JNum 42) "/start AbC123")))
           scenario_env (quiet 1000) fresh_workers_kv
           (telegram_update (JNum 42) "/start abc123")
           (telegram_update (JNum 42) "/start AbC123") (JNum 42) "abc123" "AbC123").
  - reflexivity.
  - reflexivity.
  - exists (JObj [("message_id", JNum 1);
                  ("chat", JObj [("id", JNum 42); ("type", JStr "private")]);
                  ("text", JStr "/start abc123")]),
           (JObj [("id", JNum 42); ("type", JStr "private")]).
    repeat split.
  - exists (JObj [("message_id", JNum 1);
                  ("chat", JObj [("id", JNum 42); ("type", JStr "private")]);
                  ("text", JStr "/start AbC123")]),
           (JObj [("id", JNum 42); ("type", JStr "private")]).
    repeat split.
  - reflexivity.
  - reflexivity.
  - repeat split.
Defined.

(** ** Issuances one after another *)

(** X4. A second issuance for the same code, in any letter case, replaces
    the first: whatever chat obtained the code before, a lookup made within
    600 seconds of the second issuance is answered with the chat identifier
    and the instant of the second one. *)
Theorem X4_second_issuance_replaces_first
    {S : Type} `{ExpiringKV S}
    (r1 r2 : Request) (env : Env) (p1 p2 : Platform) (w : World S)
    (u1 u2 chat1 chat2 : json) (c1 c2 : string)
    (lookup : Request) (p' : Platform) (q : string) :
  body r1 = Parsed u1 ->
  chat_event u1 chat1 ("/start " +:+ c1) ->
  no_rejection p1 ->
  body r2 = Parsed u2 ->
  chat_event u2 chat2 ("/start " +:+ c2) ->
  no_rejection p2 ->
  no_space c1 = true ->
  c1 <> EmptyString ->
  case_variant c2 c1 = true ->
  searchParams_get (searchParams lookup) "codigo" = Some q ->
  case_variant q c1 = true ->
  (Date_now p2 <= Date_now p' < Date_now p2 + 600000)%Z ->
  let first := snd (handleTelegramWebhook r1 env p1 w) in
  let second := snd (handleTelegramWebhook r2 env p2 first) in
  handleGetChatId lookup env p' second
  = (Ok (found chat2 (JNum (Date_now p2))), second).
Proof.
  intros Hb1 He1 Hq1 Hb2 He2 Hq2 Hns1 Hc1 Hv21 Hq Hvq1 Hlive first second.
  assert (Hns2 : no_space c2 = true)
    by (now rewrite (case_variant_no_space c2 c1 Hv21)).
  unfold second.
  rewrite (webhook_issues r2 env p2 first u2 chat2 c2 Hb2 He2 Hns2 Hq2).
  cbn [snd].
  rewrite (case_variant_upper c2 c1 Hv21).
  exact (lookup_within_ttl env p2 first chat2 c1 lookup p' q Hq Hvq1 Hc1 Hlive).
Qed.

(** Chat 42 obtains abc123 at instant 1000, chat 77 obtains ABC123 at
    instant 700000; a lookup at instant 800000 names chat 77. *)
Lemma X4_second_issuance_replaces_first_witness :
  let first :=
    snd (handleTelegramWebhook
           (webhook_request (Parsed (telegram_update (JNum 42) "/start abc123")))
           scenario_env (quiet 1000) fresh_workers_kv) in
  let second :=
    snd (handleTelegramWebhook
           (webhook_request (Parsed (telegram_update (JNum 77) "/start ABC123")))
           scenario_env (quiet 700000) first) in
  handleGetChatId (lookup_request [("codigo", "abc123")]) scenario_env (quiet 800000) second
  = (Ok (found (JNum 77) (JNum 700000)), second).
Proof.
  apply (X4_second_issuance_replaces_first
           (webhook_request (Parsed (telegram_update (JNum 42) "/start abc123")))
           (webhook_request (Parsed (telegram_update (JNum 77) "/start ABC123")))
           scenario_env (quiet 1000) (quiet 700000) fresh_workers_kv
           (telegram_update (JNum 42) "/start abc123")
           (telegram_update (JNum 77) "/start ABC123") (JNum 42) (JNum 77)
           "abc123" "ABC123"
           (lookup_request [("codigo", "abc123")]) (quiet 800000) "abc123").
  - reflexivity.
  - exists (JObj [("message_id", JNum 1);
                  ("chat", JObj [("id", JNum 42); ("type", JStr "private")]);
                  ("text", JStr "/start abc123")]),
           (JObj [("id", JNum 42); ("type", JStr "private")]).
    repeat split.
  - repeat split.
  - reflexivity.
  - exists (JObj [("message_id", JNum 1);
                  ("chat", JObj [("id", JNum 77); ("type", JStr "private")]);
                  ("text", JStr "/start ABC123")]),
           (JObj [("id", JNum 77); ("type", JStr "private")]).
    repeat split.
  - repeat split.
  - reflexivity.
  - discriminate.
  - reflexivity.
  - reflexivity.
  - reflexivity.
  - simpl. lia.
Defined.

(** X5. An issuance touches one key: after a message "/start c" served
    without a rejection, a lookup of any code whose upper-cased form differs
    from that of [c] is answered as it was before the issuance, at every
    instant. *)
Theorem X5_issuance_keeps_other_codes
    {S : Type} `{ExpiringKV S}
    (request : Request) (env : Env) (p : Platform) (w : World S)
    (update chat_id : json) (c : string)
    (lookup : Request) (p' : Platform) (q : string) :
  body request = Parsed update ->
  chat_event update chat_id ("/start " +:+ c) ->
  no_space c = true ->
  no_rejection p ->
  searchParams_get (searchParams lookup) "codigo" = Some q ->
  JSString.toUpperCase q <> JSString.toUpperCase c ->
  fst (handleGetChatId lookup env p' (snd (handleTelegramWebhook request env p w)))
  = fst (handleGetChatId lookup env p' w).
Proof.
  intros Hbody Hevent Hns Hquiet Hq Hother.
  rewrite (webhook_issues request env p w update chat_id c Hbody Hevent Hns Hquiet).
  cbn [snd].
  apply (lookup_reads_one_key lookup env p' _ w q Hq).
  unfold issued_world. cbn [LIBRIA_KV].
  apply kv_get_put_other.
  intros Hkey. apply codigo_key_injective in Hkey. congruence.
Qed.

(** The record of ABC123 is still returned after XYZ789 has been issued. *)
Lemma X5_issuance_keeps_other_codes_witness :
  fst (handleGetChatId (lookup_request [("codigo", "abc123")]) scenario_env (quiet 3000)
         (snd (handleTelegramWebhook
                 (webhook_request (Parsed (telegram_update (JNum 77) "/start xyz789")))
                 scenario_env (quiet 2000) (stored_world "F5C79495"))))
  = fst (handleGetChatId (lookup_request [("codigo", "abc123")]) scenario_env (quiet 3000)
           (stored_world "F5C79495")).
Proof.
  apply (X5_issuance_keeps_other_codes
           (webhook_request (Parsed (telegram_update (JNum 77) "/start xyz789")))
           scenario_env (quiet 2000) (stored_world "F5C79495")
           (telegram_update (JNum 77) "/start xyz789") (JNum 77) "xyz789"
           (lookup_request [("codigo", "abc123")]) (quiet 3000) "abc123").
  - reflexivity.
  - exists (JObj [("message_id", JNum 1);
                  ("chat", JObj [("id", JNum 77); ("type", JStr "private")]);
                  ("text", JStr "/start xyz789")]),
           (JObj [("id", JNum 77); ("type", JStr "private")]).
    repeat split.
  - reflexivity.
  - repeat split.
  - reflexivity.
  - discriminate.
Defined.

(** X8. The store write is not undone when the notification fails: for a
    message "/start c" whose hash and store write succeed and whose outbound
    call is rejected, the answer is 500, nothing is delivered and the error
    is logged, yet the record is in the store and a lookup within 600
    seconds is answered 200 with the chat identifier. *)
Theorem X8_record_stays_when_notification_fails
    {S : Type} `{ExpiringKV S}
    (request : Request) (env : Env) (p : Platform) (w : World S)
    (update chat_id : json) (c : string)
    (lookup : Request) (p' : Platform) (q : string) :
  body request = Parsed update ->
  chat_event update chat_id ("/start " +:+ c) ->
  no_space c = true ->
  c <> EmptyString ->
  crypto_rejects p = false ->
  kv_put_rejects p = false ->
  fetch_rejects p = true ->
  searchParams_get (searchParams lookup) "codigo" = Some q ->
  case_variant q c = true ->
  (Date_now p <= Date_now p' < Date_now p + 600000)%Z ->
  let run := handleTelegramWebhook request env p w in
  fst run = Ok (new_Response "Error" 500) /\
  outbox (snd run) = outbox w /\
  console (snd run) = console w ++ [FetchError] /\
  fst (handleGetChatId lookup env p' (snd run)) = Ok (found chat_id (JNum (Date_now p))).
Proof.
  intros Hbody Hevent Hns Hc Hcrypto Hput Hfetch Hq Hvariant Hlive run.
  pose proof (outbound_call_failure request env p w update chat_id c
                Hbody Hevent Hns Hcrypto Hput Hfetch) as Htry.
  destruct (webhook_catch request env p w _ _ Htry) as (Hrun & _ & _).
  unfold run. rewrite Hrun. cbn [fst snd outbox console LIBRIA_KV].
  repeat split.
  rewrite (lookup_reads_one_key lookup env p' _
             (issued_world env p w chat_id (JSString.toUpperCase c)) q Hq)
    by reflexivity.
  now rewrite (lookup_within_ttl env p w chat_id c lookup p' q Hq Hvariant Hc Hlive).
Qed.

Lemma X8_record_stays_when_notification_fails_witness :
  let p := {| Date_now := 1000; crypto_rejects := false;
              kv_put_rejects := false; fetch_rejects := true |} in
  let run :=
    handleTelegramWebhook
      (webhook_request (Parsed (telegram_update (JNum 42) "/start abc123")))
      scenario_env p fresh_workers_kv in
  fst run = Ok (new_Response "Error" 500) /\
  outbox (snd run) = outbox fresh_workers_kv /\
  console (snd run) = console fresh_workers_kv ++ [FetchError] /\
  fst (handleGetChatId (lookup_request [("codigo", "abc123")]) scenario_env (quiet 2000)
         (snd run))
  = Ok (found (JNum 42) (JNum 1000)).
Proof.
  intros p.
  apply (X8_record_stays_when_notification_fails
           (webhook_request (Parsed (telegram_update (JNum 42) "/start abc123")))
           scenario_env p fresh_workers_kv
           (telegram_update (JNum 42) "/start abc123") (JNum 42) "abc123"
           (lookup_request [("codigo", "abc123")]) (quiet 2000) "abc123").
  - reflexivity.
  - exists (JObj [("message_id", JNum 1);
                  ("chat", JObj [("id", JNum 42); ("type", JStr "private")]);
                  ("text", JStr "/start abc123")]),
           (JObj [("id", JNum 42); ("type", JStr "private")]).
    repeat split.
  - reflexivity.
  - discriminate.
  - reflexivity.
  - reflexivity.
  - reflexivity.
  - reflexivity.
  - reflexivity.
  - simpl. lia.
Defined.

(** ** A chat without an identifier *)

(** X10. The handler does not check that the chat has an identifier: for a
    message "/start c" whose chat object has no [id], served without a
    rejection, the answer is 200, the call posted to the Bot API and the
    record stored both lack [chat_id], and a lookup within 600 seconds is
    answered 200 with a body that holds the timestamp alone. *)
Theorem X10_chat_without_identifier
    {S : Type} `{ExpiringKV S}
    (request : Request) (env : Env) (p : Platform) (w : World S)
    (update message chat : json) (c : string)
    (lookup : Request) (p' : Platform) :
  body request = Parsed update ->
  member (Some update) "message" = Ok (Some message) ->
  member (Some message) "text" = Ok (Some (JStr ("/start " +:+ c))) ->
  member (Some message) "chat" = Ok (Some chat) ->
  member (Some chat) "id" = Ok undefined ->
  no_space c = true ->
  c <> EmptyString ->
  no_rejection p ->
  searchParams_get (searchParams lookup) "codigo" = Some c ->
  (Date_now p <= Date_now p' < Date_now p + 600000)%Z ->
  let firma := calcularFirma (JSString.toUpperCase c) (TELEGRAM_SECRET_KEY env) in
  let run := handleTelegramWebhook request env p w in
  fst run = Ok (new_Response "OK" 200) /\
  outbox (snd run)
  = outbox w ++ [{| call_url := sendMessage_url env;
                    call_body := JObj [("text", JStr (confirmation_message firma));
                                       ("parse_mode", JStr "Markdown")] |}] /\
  LIBRIA_KV (snd run)
  = kv_put (LIBRIA_KV w) (Date_now p) ("codigo:" +:+ JSString.toUpperCase c)
      (JObj [("firma", JStr firma); ("timestamp", JNum (Date_now p))]) 600 /\
  fst (handleGetChatId lookup env p' (snd run))
  = Ok {| payload := JsonBody (JObj [("timestamp", JNum (Date_now p))]); status := 200 |}.
Proof.
  intros Hbody Hm Ht Hch Hid Hns Hc (Hcrypto & Hput & Hfetch) Hq Hlive firma run.
  destruct (second_piece_start c Hns) as [Hspace Hpiece].
  unfold run, handleTelegramWebhook, try_catch.
  rewrite (command_with_space request env p w update message ("/start " +:+ c)
             Hbody Hm Ht (startsWith_start c) chat undefined Hch Hid Hspace).
  rewrite Hpiece.
  run_handler. rewrite Hcrypto. run_handler. rewrite Hput. run_handler.
  rewrite Hfetch. cbn [fst snd outbox LIBRIA_KV].
  split; [reflexivity |]. split; [reflexivity |]. split; [reflexivity |].
  rewrite Hq. destruct c as [| a c']; [congruence |]. run_handler.
  cbn [LIBRIA_KV]. rewrite kv_get_put_live by lia. reflexivity.
Qed.

Lemma X10_chat_without_identifier_witness :
  let firma := calcularFirma "ABC123" "s3cr3t" in
  let run :=
    handleTelegramWebhook
      (webhook_request (Parsed (update_without_chat_id "/start abc123")))
      scenario_env (quiet 1000) fresh_workers_kv in
  fst run = Ok (new_Response "OK" 200) /\
  outbox (snd run)
  = outbox fresh_workers_kv
    ++ [{| call_url := sendMessage_url scenario_env;
           call_body := JObj [("text", JStr (confirmation_message firma));
                              ("parse_mode", JStr "Markdown")] |}] /\
  LIBRIA_KV (snd run)
  = kv_put (LIBRIA_KV fresh_workers_kv) 1000 "codigo:ABC123"
      (JObj [("firma", JStr firma); ("timestamp", JNum 1000)]) 600 /\
  fst (handleGetChatId (lookup_request [("codigo", "abc123")]) scenario_env (quiet 2000)
         (snd run))
  = Ok {| payload := JsonBody (JObj [("timestamp", JNum 1000)]); status := 200 |}.
Proof.
  apply (X10_chat_without_identifier
           (webhook_request (Parsed (update_without_chat_id "/start abc123")))
           scenario_env (quiet 1000) fresh_workers_kv
           (update_without_chat_id "/start abc123")
           (JObj [("message_id", JNum 1);
                  ("chat", JObj [("type", JStr "private")]);
                  ("text", JStr "/start abc123")])
           (JObj [("type", JStr "private")]) "abc123"
           (lookup_request [("codigo", "abc123")]) (quiet 2000)).
  - reflexivity.
  - reflexivity.
  - reflexivity.
  - reflexivity.
  - reflexivity.
  - reflexivity.
  - discriminate.
  - repeat split.
  - reflexivity.
  - simpl. lia.
Defined.

(** ** What no run of the webhook handler does *)

#[local] Arguments JSON_stringify_object : simpl never.
#[local] Arguments defined_props : simpl never.
#[local] Arguments JSString.toUpperCase : simpl never.
#[local] Arguments JSString.split : simpl never.

Lemma split_piece_no_space (s : string) (i : nat) :
  no_space (nth i (JSString.split " " s) EmptyString) = true.
Proof.
  revert s. induction i as [| i IH]; intros s; rewrite (split_pieces s).
  - apply until_space_no_space.
  - cbn [nth]. destruct (no_space s); [now destruct i | apply IH].
Qed.

Section NoRunDoes.
Context {S : Type} `{KVNamespace S}.
Variables (request : Request) (env : Env) (p : Platform) (w : World S).

Lemma webhook_delivers_at_most_once :
  (outbox (snd (handleTelegramWebhook request env p w)) = outbox w \/
   exists payload,
     outbox (snd (handleTelegramWebhook request env p w))
     = outbox w ++ [{| call_url := sendMessage_url env; call_body := payload |}] /\
     fst (handleTelegramWebhook request env p w) = Ok (new_Response "OK" 200)).
Proof.
  webhook_cases;
    first [ left; reflexivity
          | right; eexists; split; reflexivity ].
Qed.

Lemma webhook_answer_and_log :
  (fst (handleTelegramWebhook request env p w) = Ok (new_Response "OK" 200) /\
   console (snd (handleTelegramWebhook request env p w)) = console w) \/
  (exists error,
     fst (handleTelegramWebhook request env p w) = Ok (new_Response "Error" 500) /\
     console (snd (handleTelegramWebhook request env p w)) = console w ++ [error] /\
     outbox (snd (handleTelegramWebhook request env p w)) = outbox w).
Proof.
  webhook_cases;
    first [ left; split; reflexivity
          | right; eexists; repeat split ].
Qed.

Lemma webhook_write_shape :
  LIBRIA_KV (snd (handleTelegramWebhook request env p w)) = LIBRIA_KV w \/
  exists (codigo : string) (chatId : js_value),
    LIBRIA_KV (snd (handleTelegramWebhook request env p w))
    = kv_put (LIBRIA_KV w) (Date_now p) ("codigo:" +:+ codigo)
        (JSON_stringify_object
           [("chat_id", chatId);
            ("firma", Some (JStr (calcularFirma codigo (TELEGRAM_SECRET_KEY env))));
            ("timestamp", Some (JNum (Date_now p)))])
        600 /\
    JSString.toUpperCase codigo = codigo /\
    no_space codigo = true.
Proof.
  webhook_cases;
    first [ left; reflexivity
          | right; eexists; eexists; split; [reflexivity |];
            split; [apply toUpperCase_idempotent |];
            rewrite toUpperCase_no_space; apply split_piece_no_space ].
Qed.

Lemma webhook_no_write_when_rejected :
  crypto_rejects p = true \/ kv_put_rejects p = true ->
  LIBRIA_KV (snd (handleTelegramWebhook request env p w)) = LIBRIA_KV w.
Proof.
  intros Hor. webhook_cases; try reflexivity; destruct Hor; congruence.
Qed.

End NoRunDoes.

(** X6. No run of the webhook handler delivers more than one call: the
    outbox is left as it was, or grows by one call posted to the
    [sendMessage] address of the configured bot token, and then the answer
    is 200. *)
Theorem X6_at_most_one_call_per_update
    {S : Type} `{KVNamespace S}
    (request : Request) (env : Env) (p : Platform) (w : World S) :
  outbox (snd (handleTelegramWebhook request env p w)) = outbox w \/
  exists payload,
    outbox (snd (handleTelegramWebhook request env p w))
    = outbox w ++ [{| call_url := sendMessage_url env; call_body := payload |}] /\
    fst (handleTelegramWebhook request env p w) = Ok (new_Response "OK" 200).
Proof. apply webhook_delivers_at_most_once. Qed.

(** X16. The webhook handler has two answers, for every request: 200 with
    the text OK, and then nothing is logged; or 500 with the text Error, and
    then exactly one error is logged and nothing is delivered. *)
Theorem X16_webhook_answers_and_log
    {S : Type} `{KVNamespace S}
    (request : Request) (env : Env) (p : Platform) (w : World S) :
  (fst (handleTelegramWebhook request env p w) = Ok (new_Response "OK" 200) /\
   console (snd (handleTelegramWebhook request env p w)) = console w) \/
  (exists error,
     fst (handleTelegramWebhook request env p w) = Ok (new_Response "Error" 500) /\
     console (snd (handleTelegramWebhook request env p w)) = console w ++ [error] /\
     outbox (snd (handleTelegramWebhook request env p w)) = outbox w).
Proof. apply webhook_answer_and_log. Qed.

(** X17. Whatever the request, a run of the webhook handler leaves the
    store as it was or makes exactly one write, of this shape: the key is
    "codigo:" followed by a code that is already upper-case and holds no
    space; the value is the object with the chat identifier, the signature
    [calcularFirma] of that very code under the configured secret, and the
    clock of the request; the time to live is 600 seconds. *)
Theorem X17_shape_of_every_write
    {S : Type} `{KVNamespace S}
    (request : Request) (env : Env) (p : Platform) (w : World S) :
  LIBRIA_KV (snd (handleTelegramWebhook request env p w)) = LIBRIA_KV w \/
  exists (codigo : string) (chatId : js_value),
    LIBRIA_KV (snd (handleTelegramWebhook request env p w))
    = kv_put (LIBRIA_KV w) (Date_now p) ("codigo:" +:+ codigo)
        (JSON_stringify_object
           [("chat_id", chatId);
            ("firma", Some (JStr (calcularFirma codigo (TELEGRAM_SECRET_KEY env))));
            ("timestamp", Some (JNum (Date_now p)))])
        600 /\
    JSString.toUpperCase codigo = codigo /\
    no_space codigo = true.
Proof. apply webhook_write_shape. Qed.

(** X7. When the hash or the store write is rejected, no request changes
    the store. *)
Theorem X7_no_write_when_hash_or_put_rejected
    {S : Type} `{KVNamespace S}
    (request : Request) (env : Env) (p : Platform) (w : World S) :
  crypto_rejects p = true \/ kv_put_rejects p = true ->
  LIBRIA_KV (snd (handleTelegramWebhook request env p w)) = LIBRIA_KV w.
Proof. apply webhook_no_write_when_rejected. Qed.

Lemma X7_no_write_when_hash_or_put_rejected_witness :
  LIBRIA_KV (snd (handleTelegramWebhook
                    (webhook_request (Parsed (telegram_update (JNum 42) "/start abc123")))
                    scenario_env
                    {| Date_now := 1000; crypto_rejects := true;
                       kv_put_rejects := false; fetch_rejects := false |}
                    fresh_workers_kv))
  = LIBRIA_KV fresh_workers_kv.
Proof.
  apply (X7_no_write_when_hash_or_put_rejected
           (webhook_request (Parsed (telegram_update (JNum 42) "/start abc123")))
           scenario_env
           {| Date_now := 1000; crypto_rejects := true;
              kv_put_rejects := false; fetch_rejects := false |}
           fresh_workers_kv).
  left. reflexivity.
Defined.

(** ** The router *)

(** X13. Only POST /webhook can change the world: for every other request
    the worker leaves the store, the outbox and the log as they are, and
    its answer is that of the lookup handler or the liveness text with
    status 200. *)
Theorem X13_only_the_webhook_route_has_effects
    {S : Type} `{KVNamespace S}
    (request : Request) (env : Env) (p : Platform) (w : World S) :
  pathname request <> "/webhook" \/ method request <> "POST" ->
  snd (worker_fetch request env p w) = w /\
  (fst (worker_fetch request env p w) = fst (handleGetChatId request env p w) \/
   fst (worker_fetch request env p w) = Ok (new_Response "LibrIA Telegram Bot - OK" 200)).
Proof.
  intros Hroute. unfold worker_fetch.
  destruct (String.eqb_spec (pathname request) "/webhook") as [Hpath | Hpath];
    destruct (String.eqb_spec (method request) "POST") as [Hmethod | Hmethod];
    cbn [andb]; try (destruct Hroute; congruence);
    destruct (String.eqb (pathname request) "/get-chat-id"
              && String.eqb (method request) "GET");
    (split; [try apply lookup_frame; reflexivity | auto]).
Qed.

(** A GET of the webhook path is not the webhook. *)
Lemma X13_only_the_webhook_route_has_effects_witness :
  let request :=
    {| method := "GET"; pathname := "/webhook"; searchParams := [];
       body := Parsed (telegram_update (JNum 42) "/start abc123") |} in
  snd (worker_fetch request scenario_env (quiet 1000) fresh_workers_kv) = fresh_workers_kv /\
  (fst (worker_fetch request scenario_env (quiet 1000) fresh_workers_kv)
   = fst (handleGetChatId request scenario_env (quiet 1000) fresh_workers_kv) \/
   fst (worker_fetch request scenario_env (quiet 1000) fresh_workers_kv)
   = Ok (new_Response "LibrIA Telegram Bot - OK" 200)).
Proof.
  intros request.
  apply (X13_only_the_webhook_route_has_effects request scenario_env (quiet 1000)
           fresh_workers_kv).
  right. discriminate.
Defined.

(** ** The worker over a sequence of requests *)



(** X15. The lookup handler does not catch: when the text stored under the
    key of the code is [null], reading [parsed.chat_id] throws a
    [TypeError] that leaves the handler, and the worker with it. *)
Theorem X15_lookup_of_stored_null_throws
    {S : Type} `{KVNamespace S}
    (request : Request) (env : Env) (p : Platform) (w : World S) (q : string) :
  searchParams_get (searchParams request) "codigo" = Some q ->
  q <> EmptyString ->
  kv_get (LIBRIA_KV w) (Date_now p) ("codigo:" +:+ JSString.toUpperCase q) = Some JNull ->
  handleGetChatId request env p w = (Throw TypeError, w).
Proof.
  intros Hq Hne Hnull. run_handler. rewrite Hq.
  destruct q as [| a q']; [congruence |]. run_handler.
  rewrite Hnull. reflexivity.
Qed.

Lemma X15_lookup_of_stored_null_throws_witness :
  handleGetChatId (lookup_request [("codigo", "abc123")]) scenario_env (quiet 2000) null_world
  = (Throw TypeError, null_world).
Proof.
  apply (X15_lookup_of_stored_null_throws (lookup_request [("codigo", "abc123")])
           scenario_env (quiet 2000) null_world "abc123").
  - reflexivity.
  - discriminate.
  - reflexivity.
Defined.

(** ** What the store holds after any sequence of requests *)

Lemma worker_fetch_holds_issued
    (request : Request) (env : Env) (p : Platform) (w : World WorkersKV) :
  holds_issued env w -> holds_issued env (snd (worker_fetch request env p w)).
Proof.
  intros Hw. unfold worker_fetch.
  destruct (String.eqb (pathname request) "/webhook" && String.eqb (method request) "POST").
  - destruct (webhook_write_shape request env p w)
      as [Hsame | (codigo & chatId & Hput & Hupper & _)];
      intros key v expiry; [rewrite Hsame; apply Hw | rewrite Hput].
    cbn [kv_put WorkersKV_namespace kv_entries].
    destruct (decide ("codigo:" +:+ codigo = key)) as [<- | Hne].
    + rewrite lookup_insert_eq. intros [= <- <-].
      exists codigo, chatId, (Date_now p). auto.
    + rewrite lookup_insert_ne by exact Hne. apply Hw.
  - destruct (String.eqb (pathname request) "/get-chat-id"
              && String.eqb (method request) "GET").
    + now rewrite lookup_frame.
    + exact Hw.
Qed.

Lemma serve_all_holds_issued
    (env : Env) (requests : list (Request * Platform)) (w : World WorkersKV) :
  holds_issued env w -> holds_issued env (serve_all env requests w).
Proof.
  revert w. induction requests as [| [r p] rest IH]; intros w Hw; [exact Hw |].
  simpl. apply IH. now apply worker_fetch_holds_issued.
Qed.

Lemma fresh_workers_kv_holds_issued (env : Env) : holds_issued env fresh_workers_kv.
Proof. intros key v expiry Hkey. simpl in Hkey. now rewrite lookup_empty in Hkey. Qed.

Lemma issued_record_fields (chatId : js_value) (firma : string) (t : Z) :
  record_field
    (JSON_stringify_object
       [("chat_id", chatId); ("firma", Some (JStr firma)); ("timestamp", Some (JNum t))])
    "firma" = Some (JStr firma) /\
  record_field
    (JSON_stringify_object
       [("chat_id", chatId); ("firma", Some (JStr firma)); ("timestamp", Some (JNum t))])
    "timestamp" = Some (JNum t).
Proof. destruct chatId; split; reflexivity. Qed.

(** X19. On Workers KV, starting from an empty namespace and whatever
    requests were served since, what the store returns under the key
    "codigo:" followed by a code is a record whose signature is
    [calcularFirma] of that code under the configured secret, and whose
    timestamp is less than 600 seconds before the instant of the read. *)
Theorem X19_stored_signature_matches_key
    (env : Env) (requests : list (Request * Platform))
    (now : Z) (codigo : string) (v : json) :
  kv_get (LIBRIA_KV (serve_all env requests fresh_workers_kv)) now ("codigo:" +:+ codigo)
  = Some v ->
  record_field v "firma" = Some (JStr (calcularFirma codigo (TELEGRAM_SECRET_KEY env))) /\
  exists t, record_field v "timestamp" = Some (JNum t) /\ (now < t + 600000)%Z.
Proof.
  pose proof (serve_all_holds_issued env requests fresh_workers_kv
                (fresh_workers_kv_holds_issued env)) as Hissued.
  set (w := serve_all env requests fresh_workers_kv) in *.
  cbn [kv_get WorkersKV_namespace].
  destruct (kv_entries (LIBRIA_KV w) !! ("codigo:" +:+ codigo))
    as [[v' expiry] |] eqn:Hkey; [| discriminate].
  destruct (Hissued _ _ _ Hkey) as (codigo' & chatId & t & Heq & _ & Hv & Hexp).
  apply codigo_key_injective in Heq. subst codigo' v' expiry.
  destruct (Z.ltb_spec now (t + 1000 * 600)) as [Hlive |]; [| discriminate].
  intros [= <-].
  destruct (issued_record_fields chatId
              (calcularFirma codigo (TELEGRAM_SECRET_KEY env)) t) as [Hf Ht].
  split; [exact Hf |]. exists t. split; [exact Ht | lia].
Qed.

Lemma X19_stored_signature_matches_key_witness :
  let requests :=
    [(webhook_request (Parsed (telegram_update (JNum 42) "/start abc123")), quiet 1000);
     (lookup_request [("codigo", "abc123")], quiet 1500);
     (webhook_request (Parsed (telegram_update (JNum 77) "/start xyz789")), quiet 1700)] in
  let v := issued_record (JNum 42) "F5C79495" 1000 in
  record_field v "firma" = Some (JStr (calcularFirma "ABC123" "s3cr3t")) /\
  exists t, record_field v "timestamp" = Some (JNum t) /\ (2000 < t + 600000)%Z.
Proof.
  intros requests v.
  apply (X19_stored_signature_matches_key scenario_env requests 2000 "ABC123" v).
  vm_compute. reflexivity.
Defined.

(** X18. On Workers KV, starting from an empty namespace and whatever
    requests were served since, a lookup answered 200 carries the timestamp
    of an issuance made less than 600 seconds before the lookup, and no
    signature. *)
Theorem X18_found_answer_is_fresh
    (env : Env) (requests : list (Request * Platform))
    (request : Request) (p : Platform) (response : Response) :
  fst (handleGetChatId request env p (serve_all env requests fresh_workers_kv))
  = Ok response ->
  status response = 200%Z ->
  response_field response "firma" = undefined /\
  exists t,
    response_field response "timestamp" = Some (JNum t) /\
    (Date_now p < t + 600000)%Z.
Proof.
  pose proof (serve_all_holds_issued env requests fresh_workers_kv
                (fresh_workers_kv_holds_issued env)) as Hissued.
  set (w := serve_all env requests fresh_workers_kv) in *.
  run_handler.
  destruct (searchParams_get (searchParams request) "codigo") as [[| a q] |];
    try (intros [= <-]; discriminate).
  run_handler. cbn [kv_get WorkersKV_namespace].
  destruct (kv_entries (LIBRIA_KV w) !! ("codigo:" +:+ JSString.toUpperCase (String a q)))
    as [[v expiry] |] eqn:Hkey; [| intros [= <-]; discriminate].
  destruct (Hissued _ _ _ Hkey) as (codigo & chatId & t & _ & _ & -> & ->).
  destruct (Z.ltb_spec (Date_now p) (t + 1000 * 600)) as [Hlive |];
    [| intros [= <-]; discriminate].
  destruct chatId as [chat_id |]; intros [= <-] _;
    (split; [reflexivity | exists t; split; [reflexivity | lia]]).
Qed.

Lemma X18_found_answer_is_fresh_witness :
  let response := found (JNum 42) (JNum 1000) in
  response_field response "firma" = undefined /\
  exists t,
    response_field response "timestamp" = Some (JNum t) /\
    (Date_now (quiet 2000) < t + 600000)%Z.
Proof.
  intros response.
  apply (X18_found_answer_is_fresh scenario_env
           [(webhook_request (Parsed (telegram_update (JNum 42) "/start abc123")),
             quiet 1000)]
           (lookup_request [("codigo", "abc123")]) (quiet 2000) response).
  - vm_compute. reflexivity.
  - reflexivity.
Defined.
